(** * alibi_detect.models.trainer: the generic training loop

    A shallow embedding of [trainer] (src/alibi_detect/models/trainer.py).

    The function is glue around an external framework.  The collaborators
    it calls (the model, the loss function, the gradient tape, the
    optimizer, the metric, the shuffling of the dataset) are the fields
    of a class, [Framework]: every theorem holds for all of its
    instances.  What the function
    itself does is state passing: a [World] holds the mutable objects
    owned by the caller (model weights, optimizer slots, metric
    accumulator), exceptions are the [Raise] branch of [Result], and every
    call made to a collaborator is recorded in a log, one list of [Call]s
    per batch and one [EpochLog] per epoch, so that the properties of the
    loop can be stated on what was called, with which arguments, in which
    order. *)

From Stdlib Require Import String.
From Stdlib Require Import List ZArith Lia Bool Permutation Arith Sorted.
Import ListNotations.

(** ** Exceptions and results *)

(** The exceptions that can leave [trainer]: the ones raised by the
    Python and numpy operations written in the function itself, and the
    ones raised inside a collaborator ([FrameworkError]), which are opaque. *)
Inductive exn (Err : Type) : Type :=
| ValueError
| TypeError
| ZeroDivisionError
| InvalidArgumentError
| FrameworkError (e : Err).

Arguments ValueError {Err}.
Arguments TypeError {Err}.
Arguments ZeroDivisionError {Err}.
Arguments InvalidArgumentError {Err}.
Arguments FrameworkError {Err} e.

Inductive Result (Err A : Type) : Type :=
| Ok (a : A)
| Raise (e : exn Err).

Arguments Ok {Err A} a.
Arguments Raise {Err A} e.

(** the least integer that does not fit a signed 64-bit integer *)
Definition int64_limit : Z := (2 ^ 63)%Z.

(** ** tf.data: slicing, shuffling, batching *)

Module Dataset.
Section Ops.
Context {A : Type}.

(** [gather l order]: the elements of [l] in the order given by a list
    of positions. *)
Definition gather (l : list A) (order : list nat) : list A :=
  flat_map (fun i => match nth_error l i with
                     | Some x => [x]
                     | None => []
                     end) order.

(** [Dataset.batch(b)] without [drop_remainder]: consecutive groups of
    [b] elements, the last one possibly shorter, never empty.  The fuel
    is the length of the list, enough for every [b > 0]
    ([chunks_concat]); [trainer] never gets here with [b = 0]. *)
Fixpoint chunks (fuel b : nat) (l : list A) : list (list A) :=
  match fuel with
  | O => []
  | S fuel' =>
      match l with
      | [] => []
      | _ :: _ => firstn b l :: chunks fuel' b (skipn b l)
      end
  end.

Definition batch (b : nat) (l : list A) : list (list A) :=
  chunks (length l) b l.
End Ops.
End Dataset.

(** ** numpy arrays, as far as the progress display needs them *)

Section Ndarray.
Context {Scalar : Type}.

Record ndarray : Type := mk_ndarray {
  shape : list nat;
  data : list Scalar
}.

(** [a.shape == (n,)] *)
Definition shape_is (a : ndarray) (n : Z) : bool :=
  match shape a with
  | [d] => (Z.of_nat d =? n)%Z
  | _ => false
  end.

(** truth value of the tuple [a.shape] *)
Definition shape_nonempty (a : ndarray) : bool :=
  match shape a with
  | [] => false
  | _ :: _ => true
  end.

(** [a.shape[0]], read only where the shape is not empty *)
Definition shape0 (a : ndarray) : Z :=
  match shape a with
  | [] => 0%Z
  | d :: _ => Z.of_nat d
  end.
End Ndarray.

Arguments ndarray Scalar : clear implicits.

(** ** The collaborators' values *)

(** What a forward pass returns: one tensor ([tf.is_tensor] holds) or a
    sequence of tensors. *)
Inductive Preds (Tensor : Type) : Type :=
| Single (t : Tensor)
| Multiple (ts : list Tensor).

Arguments Single {Tensor} t.
Arguments Multiple {Tensor} ts.

(** A positional argument of the loss function: the ground-truth batch
    or one model output. *)
Inductive Arg (Row Tensor : Type) : Type :=
| ABatch (rows : list Row)
| ATensor (t : Tensor).

Arguments ABatch {Row Tensor} rows.
Arguments ATensor {Row Tensor} t.

(** The dataset built from [X_train] alone or from the pair
    [(X_train, y_train)], and what iterating it yields. *)
Inductive Slices (Row : Type) : Type :=
| SlicesX (xs : list Row)
| SlicesXY (xys : list (Row * Row)).

Arguments SlicesX {Row} xs.
Arguments SlicesXY {Row} xys.

Inductive Batch (Row : Type) : Type :=
| BX (xb : list Row)
| BXY (xb yb : list Row).

Arguments BX {Row} xb.
Arguments BXY {Row} xb yb.

(** ** The framework

    Everything [trainer] is handed or imports: the model (callable, with
    weights and an optional list of auxiliary losses), the loss function,
    the gradient tape, the optimizer, the metric object, numpy's view of a
    loss tensor, and the shuffling of the dataset. *)

Class Types : Type := {
  Row : Type;           (* one example: a slice of [X_train] or [y_train] *)
  Tensor : Type;        (* one model output *)
  Loss : Type;          (* a loss tensor, scalar or per example *)
  Grad : Type;
  Weights : Type;
  OptState : Type;
  MetricState : Type;
  KwVal : Type;
  Scalar : Type;
  Err : Type
}.

Class Framework (T : Types) : Type := {
  (** [model(X_train_batch)] under the current weights *)
  model_call : Weights -> list Row -> Result Err (Preds Tensor);
  (** [model.losses] after that forward pass *)
  model_losses : Weights -> list Row -> list Loss;
  (** [loss_fn] on positional and keyword arguments; a call without
      keyword arguments is a call with the empty dictionary *)
  loss_fn : list (Arg Row Tensor) -> list (string * KwVal) -> Result Err Loss;
  (** [+] on loss tensors, and the integer [0] that [sum] starts from *)
  loss_add : Loss -> Loss -> Loss;
  loss_zero : Loss;
  (** [tape.gradient(loss, model.trainable_weights)]: the tape has
      recorded the forward pass on the batch under the weights *)
  tape_gradient : Weights -> Batch Row -> Loss -> Result Err Grad;
  (** [optimizer.apply_gradients(zip(grads, model.trainable_weights))] *)
  apply_gradients : OptState -> Grad -> Weights -> Result Err (OptState * Weights);
  (** [log_metric[1](ground_truth, preds)] and
      [log_metric[1].result().numpy()] *)
  metric_update :
    MetricState -> list Row -> Preds Tensor -> Result Err MetricState;
  metric_result : MetricState -> ndarray Scalar;
  (** [loss.numpy()] and [loss_val.mean()] *)
  numpy : Loss -> ndarray Scalar;
  mean : list Scalar -> Scalar;
  (** the order in which [shuffle] yields the [n] elements when the
      dataset is iterated for the given epoch, and whether the framework
      accepts the buffer size *)
  shuffle_order : nat -> Z -> nat -> list nat;
  buffer_ok : Z -> bool
}.

(** [shuffle] yields every element of the dataset exactly once. *)
Definition shuffle_is_permutation {T : Types} (F : Framework T) : Prop :=
  forall epoch buffer n,
    Permutation (shuffle_order epoch buffer n) (seq 0 n).

Section Trainer.
Context {T : Types} {F : Framework T}.

Local Abbreviation exn := (exn Err).
Local Abbreviation Result := (Result Err).
Local Abbreviation ndarray := (ndarray Scalar).
Local Abbreviation Preds := (Preds Tensor).
Local Abbreviation Arg := (Arg Row Tensor).
Local Abbreviation Slices := (Slices Row).
Local Abbreviation Batch := (Batch Row).

(** a [dict] of keyword arguments *)
Definition kwargs : Type := list (string * KwVal).

(** *** State and log *)

Record World : Type := mk_World {
  weights : Weights;
  opt_state : OptState;
  metric_state : MetricState
}.

Inductive Call : Type :=
| CForward (xb : list Row) (r : Result Preds)
| CLoss (args : list Arg) (kw : kwargs) (r : Result Loss)
| CGradient (loss : Loss) (r : Result Grad)
| CApply (g : Grad) (r : Result (OptState * Weights))
| CMetric (gt : list Row) (p : Preds) (r : Result MetricState)
| CPbarAdd (n : Z) (values : list (string * ndarray)).

Definition StepLog : Type := list Call.

Record EpochLog : Type := mk_EpochLog {
  progbar : option (Z * Z);   (* arguments of [Progbar(n_minibatch, 1)] *)
  steps : list StepLog
}.

(** the exception a logged call ended with, if any *)
Definition call_error (c : Call) : option exn :=
  match c with
  | CForward _ (Raise e) | CLoss _ _ (Raise e) | CGradient _ (Raise e)
  | CApply _ (Raise e) | CMetric _ _ (Raise e) => Some e
  | _ => None
  end.

(** *** The monad of one loop body: state, log, exceptions *)

Definition Step (A : Type) : Type :=
  World * StepLog -> (World * StepLog) * Result A.

Definition ret {A} (a : A) : Step A := fun s => (s, Ok a).

Definition bind {A B} (m : Step A) (f : A -> Step B) : Step B :=
  fun s => match m s with
           | (s', Ok a) => f a s'
           | (s', Raise e) => (s', Raise e)
           end.

Definition lift {A} (r : Result A) : Step A := fun s => (s, r).

Notation "x <- m ;; k" := (bind m (fun x => k))
  (at level 61, m at next level, right associativity).
Notation "' pat <- m ;; k" := (bind m (fun x => match x with pat => k end))
  (at level 61, pat pattern, m at next level, right associativity).

Definition call_model (xb : list Row) : Step Preds :=
  fun '(w, cs) =>
    let r := model_call (weights w) xb in
    ((w, cs ++ [CForward xb r]), r).

Definition call_loss (args : list Arg) (kw : kwargs) : Step Loss :=
  fun '(w, cs) =>
    let r := loss_fn args kw in
    ((w, cs ++ [CLoss args kw r]), r).

Definition read_model_losses (xb : list Row) : Step (list Loss) :=
  fun '(w, cs) => ((w, cs), Ok (model_losses (weights w) xb)).

Definition call_gradient (tb : Batch) (loss : Loss) : Step Grad :=
  fun '(w, cs) =>
    let r := tape_gradient (weights w) tb loss in
    ((w, cs ++ [CGradient loss r]), r).

(** An optimizer step or a metric update that raises is taken to leave
    the object as it was. *)
Definition call_apply (g : Grad) : Step unit :=
  fun '(w, cs) =>
    let r := apply_gradients (opt_state w) g (weights w) in
    match r with
    | Ok (o', w') =>
        ((mk_World w' o' (metric_state w), cs ++ [CApply g r]), Ok tt)
    | Raise e => ((w, cs ++ [CApply g r]), Raise e)
    end.

Definition call_metric (gt : list Row) (p : Preds) : Step ndarray :=
  fun '(w, cs) =>
    let r := metric_update (metric_state w) gt p in
    match r with
    | Ok m' =>
        ((mk_World (weights w) (opt_state w) m', cs ++ [CMetric gt p r]),
         Ok (metric_result m'))
    | Raise e => ((w, cs ++ [CMetric gt p r]), Raise e)
    end.

Definition pbar_add (n : Z) (values : list (string * ndarray)) : Step unit :=
  fun '(w, cs) => ((w, cs ++ [CPbarAdd n values]), Ok tt).

(** *** Pieces of the loop body *)

(** lines 65-68: [X_train_batch] and, with labels, [y_train_batch] *)
Definition unpack (y_train : option (list Row)) (train_batch : Batch)
  : Result (list Row * option (list Row)) :=
  match y_train, train_batch with
  | None, BX xb => Ok (xb, None)
  | Some _, BXY xb yb => Ok (xb, Some yb)
  | _, _ => Raise TypeError   (* a dataset never yields these *)
  end.

(** lines 73-76 *)
Definition select_ground_truth (y_train : option (list Row))
    (X_train_batch : list Row) (y_train_batch : option (list Row)) : list Row :=
  match y_train, y_train_batch with
  | Some _, Some yb => yb
  | _, _ => X_train_batch
  end.

(** lines 79-82 *)
Definition loss_args (ground_truth : list Row) (preds : Preds) : list Arg :=
  match preds with
  | Single p => [ABatch ground_truth; ATensor p]
  | Multiple ps => [ABatch ground_truth] ++ map ATensor ps
  end.

(** truth value of [loss_fn_kwargs] *)
Definition kwargs_truthy (k : option kwargs) : bool :=
  match k with
  | Some (_ :: _) => true
  | _ => false
  end.

(** lines 84-87 *)
Definition compute_loss (loss_fn_kwargs : option kwargs) (args : list Arg)
  : Step Loss :=
  match loss_fn_kwargs with
  | Some kw => if kwargs_truthy loss_fn_kwargs
               then call_loss args kw
               else call_loss args []
  | None => call_loss args []
  end.

(** Python's [sum(model.losses)] *)
Definition py_sum (ls : list Loss) : Loss := fold_left loss_add ls loss_zero.

(** lines 89-90 *)
Definition add_model_losses (loss : Loss) (losses : list Loss) : Loss :=
  match losses with
  | [] => loss
  | _ :: _ => loss_add loss (py_sum losses)
  end.

(** the least length numpy refuses for an array of eight-byte floats:
    its size in bytes would not fit a signed 64-bit integer *)
Definition too_big : Z := (2 ^ 60)%Z.

(** [np.ones((k,)) * m]: [k] copies of [m] (multiplying by one changes no
    floating-point value); a negative length and a length that is too
    big are refused, both with [ValueError].  Running out of memory
    below that length is not modelled. *)
Definition np_ones_times (k : Z) (m : Scalar) : Result ndarray :=
  if (k <? 0)%Z then Raise ValueError
  else if (too_big <=? k)%Z then Raise ValueError
  else Ok (mk_ndarray [Z.to_nat k] (repeat m (Z.to_nat k))).

(** [np.r_[a, b]] for a one-dimensional [b] *)
Definition np_r_ (a b : ndarray) : Result ndarray :=
  match shape a, shape b with
  | [n], [k] => Ok (mk_ndarray [n + k] (data a ++ data b))
  | _, _ => Raise ValueError
  end.

(** lines 98-99 *)
Definition pad_with_mean (batch_size : Z) (loss_val : ndarray) : Result ndarray :=
  match np_ones_times (batch_size - shape0 loss_val) (mean (data loss_val)) with
  | Ok add_mean => np_r_ loss_val add_mean
  | Raise e => Raise e
  end.

(** lines 97-99 *)
Definition display_loss (batch_size : Z) (loss_val : ndarray) : Result ndarray :=
  if negb (shape_is loss_val batch_size) && shape_nonempty loss_val
  then pad_with_mean batch_size loss_val
  else Ok loss_val.

(** *** The arguments of [trainer] *)

Record Config : Type := mk_Config {
  X_train : list Row;
  y_train : option (list Row);
  loss_fn_kwargs : option kwargs;
  epochs : Z;
  batch_size : Z;
  buffer_size : Z;
  verbose : bool;
  log_metric : option string   (* the name; the metric object is in the World *)
}.

Section Run.
Variable cfg : Config.

(** truth value of [loss_fn_kwargs] decides lines 84-87: the keyword
    arguments the loss function receives *)
Definition effective_kwargs (k : option kwargs) : kwargs :=
  match k with
  | Some kw => if kwargs_truthy k then kw else []
  | None => []
  end.

(** lines 65-93: forward pass, loss, gradients, optimizer step *)
Definition gradient_step (train_batch : Batch)
  : Step (list Row * Preds * Loss) :=
  '(X_train_batch, y_train_batch) <- lift (unpack (y_train cfg) train_batch) ;;
  preds <- call_model X_train_batch ;;
  let ground_truth :=
    select_ground_truth (y_train cfg) X_train_batch y_train_batch in
  let args := loss_args ground_truth preds in
  loss <- compute_loss (loss_fn_kwargs cfg) args ;;
  losses <- read_model_losses X_train_batch ;;
  let loss := add_model_losses loss losses in
  grads <- call_gradient train_batch loss ;;
  _ <- call_apply grads ;;
  ret (ground_truth, preds, loss).

(** lines 96-104: what is shown when [verbose] *)
Definition report_progress (ground_truth : list Row) (preds : Preds)
    (loss : Loss) : Step unit :=
  let loss_val := numpy loss in
  loss_val <- lift (display_loss (batch_size cfg) loss_val) ;;
  let pbar_values := [("loss"%string, loss_val)] in
  pbar_values <-
    match log_metric cfg with
    | Some name =>
        res <- call_metric ground_truth preds ;;
        ret (pbar_values ++ [(name, res)])
    | None => ret pbar_values
    end ;;
  pbar_add 1 pbar_values.

(** lines 65-104: the body of the inner loop *)
Definition train_step (train_batch : Batch) : Step unit :=
  '(ground_truth, preds, loss) <- gradient_step train_batch ;;
  if verbose cfg then report_progress ground_truth preds loss else ret tt.

Definition run_step (train_batch : Batch) (w : World)
  : World * StepLog * Result unit :=
  let '((w', sl), r) := train_step train_batch (w, []) in (w', sl, r).

(** *** The dataset (lines 49-55) *)

(** [tf.data.Dataset.from_tensor_slices]: the components must agree on
    their first dimension, or [ValueError] is raised. *)
Definition from_tensor_slices (X : list Row) (y : option (list Row))
  : Result Slices :=
  match y with
  | None => Ok (SlicesX X)
  | Some ys =>
      if length X =? length ys then Ok (SlicesXY (combine X ys))
      else Raise ValueError
  end.

(** [.shuffle(buffer_size).batch(batch_size)]: both sizes are checked
    when the dataset is built.  The batch size becomes a 64-bit integer
    tensor: a value that does not fit raises [ValueError], a value that
    is not positive [InvalidArgumentError]. *)
Definition shuffle_batch_check : Result unit :=
  if negb (buffer_ok (buffer_size cfg)) then Raise InvalidArgumentError
  else if (int64_limit <=? batch_size cfg)%Z
          || (batch_size cfg <? - int64_limit)%Z then Raise ValueError
  else if (batch_size cfg <=? 0)%Z then Raise InvalidArgumentError
  else Ok tt.

(** [int(np.ceil(N / batch_size))] *)
Definition ceil_div (n b : Z) : Z := (- ((- n) / b))%Z.

Definition n_minibatch_of (N : nat) : Result Z :=
  if (batch_size cfg =? 0)%Z then Raise ZeroDivisionError
  else Ok (ceil_div (Z.of_nat N) (batch_size cfg)).

Definition shuffled {A} (epoch : nat) (l : list A) : list A :=
  Dataset.gather l (shuffle_order epoch (buffer_size cfg) (length l)).

(** One iteration over [train_data]: the batches of one epoch. *)
Definition iterate (train_data : Slices) (epoch : nat) : list Batch :=
  let b := Z.to_nat (batch_size cfg) in
  match train_data with
  | SlicesX xs => map BX (Dataset.batch b (shuffled epoch xs))
  | SlicesXY xys =>
      map (fun c => BXY (map fst c) (map snd c))
          (Dataset.batch b (shuffled epoch xys))
  end.

(** *** The loops (lines 58-104) *)

Fixpoint batches_loop (bs : list Batch) (w : World)
  : World * list StepLog * Result unit :=
  match bs with
  | [] => (w, [], Ok tt)
  | train_batch :: bs' =>
      match run_step train_batch w with
      | (w1, sl, Ok _) =>
          let '(w2, sls, r) := batches_loop bs' w1 in (w2, sl :: sls, r)
      | (w1, sl, Raise e) => (w1, [sl], Raise e)
      end
  end.

Definition run_epoch (train_data : Slices) (n_minibatch : Z) (epoch : nat)
    (w : World) : World * EpochLog * Result unit :=
  let pbar := if verbose cfg then Some (n_minibatch, 1%Z) else None in
  let '(w', sls, r) := batches_loop (iterate train_data epoch) w in
  (w', mk_EpochLog pbar sls, r).

Fixpoint epochs_loop (train_data : Slices) (n_minibatch : Z)
    (todo epoch : nat) (w : World) : World * list EpochLog * Result unit :=
  match todo with
  | O => (w, [], Ok tt)
  | S todo' =>
      match run_epoch train_data n_minibatch epoch w with
      | (w1, el, Ok _) =>
          let '(w2, els, r) :=
            epochs_loop train_data n_minibatch todo' (S epoch) w1 in
          (w2, el :: els, r)
      | (w1, el, Raise e) => (w1, [el], Raise e)
      end
  end.

(** lines 48-104 *)
Definition trainer (w : World) : World * list EpochLog * Result unit :=
  match from_tensor_slices (X_train cfg) (y_train cfg) with
  | Raise e => (w, [], Raise e)
  | Ok train_data =>
      match shuffle_batch_check with
      | Raise e => (w, [], Raise e)
      | Ok _ =>
          match n_minibatch_of (length (X_train cfg)) with
          | Raise e => (w, [], Raise e)
          | Ok n_minibatch =>
              epochs_loop train_data n_minibatch
                          (Z.to_nat (epochs cfg)) 0 w
          end
      end
  end.

(** *** The outcomes of the loop body, read as relations

    [gradient_outcome w tb xb gt w' cs r]: from world [w], on batch [tb]
    with inputs [xb] and ground truth [gt], lines 70-93 log the calls [cs],
    leave the world [w'] and end in [r]. *)

Definition total_loss (w : World) (xb : list Row) (l0 : Loss) : Loss :=
  add_model_losses l0 (model_losses (weights w) xb).

Inductive gradient_outcome (w : World) (tb : Batch) (xb gt : list Row)
  : World -> StepLog -> Result (list Row * Preds * Loss) -> Prop :=
| GO_forward : forall e,
    model_call (weights w) xb = Raise e ->
    gradient_outcome w tb xb gt w [CForward xb (Raise e)] (Raise e)
| GO_loss : forall preds e,
    model_call (weights w) xb = Ok preds ->
    loss_fn (loss_args gt preds) (effective_kwargs (loss_fn_kwargs cfg))
      = Raise e ->
    gradient_outcome w tb xb gt w
      [CForward xb (Ok preds);
       CLoss (loss_args gt preds) (effective_kwargs (loss_fn_kwargs cfg))
             (Raise e)]
      (Raise e)
| GO_gradient : forall preds l0 e,
    model_call (weights w) xb = Ok preds ->
    loss_fn (loss_args gt preds) (effective_kwargs (loss_fn_kwargs cfg))
      = Ok l0 ->
    tape_gradient (weights w) tb (total_loss w xb l0) = Raise e ->
    gradient_outcome w tb xb gt w
      [CForward xb (Ok preds);
       CLoss (loss_args gt preds) (effective_kwargs (loss_fn_kwargs cfg))
             (Ok l0);
       CGradient (total_loss w xb l0) (Raise e)]
      (Raise e)
| GO_apply : forall preds l0 g e,
    model_call (weights w) xb = Ok preds ->
    loss_fn (loss_args gt preds) (effective_kwargs (loss_fn_kwargs cfg))
      = Ok l0 ->
    tape_gradient (weights w) tb (total_loss w xb l0) = Ok g ->
    apply_gradients (opt_state w) g (weights w) = Raise e ->
    gradient_outcome w tb xb gt w
      [CForward xb (Ok preds);
       CLoss (loss_args gt preds) (effective_kwargs (loss_fn_kwargs cfg))
             (Ok l0);
       CGradient (total_loss w xb l0) (Ok g);
       CApply g (Raise e)]
      (Raise e)
| GO_ok : forall preds l0 g o' W',
    model_call (weights w) xb = Ok preds ->
    loss_fn (loss_args gt preds) (effective_kwargs (loss_fn_kwargs cfg))
      = Ok l0 ->
    tape_gradient (weights w) tb (total_loss w xb l0) = Ok g ->
    apply_gradients (opt_state w) g (weights w) = Ok (o', W') ->
    gradient_outcome w tb xb gt (mk_World W' o' (metric_state w))
      [CForward xb (Ok preds);
       CLoss (loss_args gt preds) (effective_kwargs (loss_fn_kwargs cfg))
             (Ok l0);
       CGradient (total_loss w xb l0) (Ok g);
       CApply g (Ok (o', W'))]
      (Ok (gt, preds, total_loss w xb l0)).

(** [report_outcome w gt preds loss w' cs r]: the same for lines 96-104. *)
Inductive report_outcome (w : World) (gt : list Row) (preds : Preds)
    (loss : Loss) : World -> StepLog -> Result unit -> Prop :=
| RO_pad : forall e,
    display_loss (batch_size cfg) (numpy loss) = Raise e ->
    report_outcome w gt preds loss w [] (Raise e)
| RO_plain : forall lv,
    display_loss (batch_size cfg) (numpy loss) = Ok lv ->
    log_metric cfg = None ->
    report_outcome w gt preds loss w
      [CPbarAdd 1 [("loss"%string, lv)]] (Ok tt)
| RO_metric_raise : forall lv name e,
    display_loss (batch_size cfg) (numpy loss) = Ok lv ->
    log_metric cfg = Some name ->
    metric_update (metric_state w) gt preds = Raise e ->
    report_outcome w gt preds loss w [CMetric gt preds (Raise e)] (Raise e)
| RO_metric : forall lv name m',
    display_loss (batch_size cfg) (numpy loss) = Ok lv ->
    log_metric cfg = Some name ->
    metric_update (metric_state w) gt preds = Ok m' ->
    report_outcome w gt preds loss
      (mk_World (weights w) (opt_state w) m')
      [CMetric gt preds (Ok m');
       CPbarAdd 1 [("loss"%string, lv); (name, metric_result m')]]
      (Ok tt).

(** One pass of the whole body. *)
Inductive step_outcome (w : World) (tb : Batch) (xb gt : list Row)
  : World -> StepLog -> Result unit -> Prop :=
| SO_raise : forall w1 cs e,
    gradient_outcome w tb xb gt w1 cs (Raise e) ->
    step_outcome w tb xb gt w1 cs (Raise e)
| SO_quiet : forall w1 cs preds loss,
    gradient_outcome w tb xb gt w1 cs (Ok (gt, preds, loss)) ->
    verbose cfg = false ->
    step_outcome w tb xb gt w1 cs (Ok tt)
| SO_verbose : forall w1 cs preds loss w2 cs' r,
    gradient_outcome w tb xb gt w1 cs (Ok (gt, preds, loss)) ->
    verbose cfg = true ->
    report_outcome w1 gt preds loss w2 cs' r ->
    step_outcome w tb xb gt w2 (cs ++ cs') r.

(** what a batch holds *)
Definition batch_inputs (tb : Batch) : list Row :=
  match tb with
  | BX xb => xb
  | BXY xb _ => xb
  end.

Definition batch_ground_truth (tb : Batch) : list Row :=
  match tb with
  | BX xb => xb
  | BXY _ yb => yb
  end.

(** the batch the dataset yields at step [s] of epoch [e] *)
Definition batch_at (e s : nat) : option Batch :=
  match from_tensor_slices (X_train cfg) (y_train cfg) with
  | Ok train_data => nth_error (iterate train_data e) s
  | Raise _ => None
  end.

(** a batch of the training set: examples of [X_train], each with its
    own label when there are labels *)
Definition batch_of_training_set (tb : Batch) : Prop :=
  match y_train cfg, tb with
  | None, BX xb => incl xb (X_train cfg)
  | Some ys, BXY xb yb =>
      length xb = length yb /\
      incl (combine xb yb) (combine (X_train cfg) ys)
  | _, _ => False
  end.

(** by how many units the progress bar was advanced during one batch *)
Definition pbar_advance (sl : StepLog) : Z :=
  fold_right (fun c acc => match c with
                           | CPbarAdd n _ => (n + acc)%Z
                           | _ => acc
                           end) 0%Z sl.

(** the log of batch [s] of epoch [e] *)
Definition step_at (log : list EpochLog) (e s : nat) : option StepLog :=
  match nth_error log e with
  | Some el => nth_error (steps el) s
  | None => None
  end.

(** [(e, s)] is the last batch that was started *)
Definition last_step (log : list EpochLog) (e s : nat) : Prop :=
  S e = length log /\
  exists el, nth_error log e = Some el /\ S s = length (steps el).

End Run.

(** *** Comparing two calls that differ in [verbose] only *)

(** the same arguments with another [verbose] flag *)
Definition with_verbose (b : bool) (cfg : Config) : Config :=
  mk_Config (X_train cfg) (y_train cfg) (loss_fn_kwargs cfg) (epochs cfg)
            (batch_size cfg) (buffer_size cfg) b (log_metric cfg).

(** the calls that train: forward pass, loss, gradients, optimizer step *)
Definition is_training_call (c : Call) : bool :=
  match c with
  | CForward _ _ | CLoss _ _ _ | CGradient _ _ | CApply _ _ => true
  | CMetric _ _ _ | CPbarAdd _ _ => false
  end.

Definition training_calls (sl : StepLog) : StepLog :=
  filter is_training_call sl.

(** the three components of what a call of [trainer] returns, and the
    log of one of its batches (empty when the batch was not reached) *)
Definition final_world (cfg : Config) (w : World) : World :=
  fst (fst (trainer cfg w)).

Definition log_of (cfg : Config) (w : World) : list EpochLog :=
  snd (fst (trainer cfg w)).

Definition result_of (cfg : Config) (w : World) : Result unit :=
  snd (trainer cfg w).

Definition step_log (cfg : Config) (w : World) (e s : nat) : StepLog :=
  match step_at (log_of cfg w) e s with
  | Some sl => sl
  | None => []
  end.

(** per epoch and per batch, the training calls of a run, in order *)
Definition training_log (log : list EpochLog) : list (list StepLog) :=
  map (fun el => map training_calls (steps el)) log.

(** *** The run as one sequence of batches *)

(** the batch logs of a run in the order the batches were processed,
    across epochs *)
Definition all_steps (log : list EpochLog) : list StepLog :=
  concat (map steps log).

(** an optimizer step that was applied *)
Definition is_applied (c : Call) : bool :=
  match c with
  | CApply _ (Ok _) => true
  | _ => false
  end.

(** how many optimizer steps a run applied *)
Definition optimizer_steps (log : list EpochLog) : nat :=
  list_sum (map (fun sl => length (filter is_applied sl)) (all_steps log)).

(** by how much the progress bar of an epoch was advanced in all *)
Definition epoch_advance (el : EpochLog) : Z :=
  fold_right (fun sl acc => (pbar_advance sl + acc)%Z) 0%Z (steps el).

(** the place of a call in the loop body (lines 71, 85-87, 92, 93, 102,
    104) *)
Definition stage (c : Call) : nat :=
  match c with
  | CForward _ _ => 0
  | CLoss _ _ _ => 1
  | CGradient _ _ => 2
  | CApply _ _ => 3
  | CMetric _ _ _ => 4
  | CPbarAdd _ _ => 5
  end.

(** [chain cfg w sls w']: the loop body, run on some batches one after
    the other from the world [w], logs [sls] and leaves the world [w']. *)
Inductive chain (cfg : Config) : World -> list StepLog -> World -> Prop :=
| chain_nil : forall w, chain cfg w [] w
| chain_cons : forall w tb w1 sl r sls w2,
    run_step cfg tb w = (w1, sl, r) ->
    chain cfg w1 sls w2 ->
    chain cfg w (sl :: sls) w2.

End Trainer.

(** * A small framework to run the loop on

    Rows and scalars are integers.  The model multiplies every input by
    its single weight and refuses negative inputs; with [multi] it
    returns two outputs.  The loss is the per-example absolute error, or
    its sum when the keyword [reduce] is passed; the model's auxiliary
    loss is its weight (none when the weight is zero).  The gradient is
    the sign of the summed loss, refused above 1000, and the optimizer
    subtracts it from the weight.  The metric counts the rows seen.
    [shuffle] reverses the dataset. *)

Module Toy.

Definition zsum (l : list Z) : Z := fold_right Z.add 0%Z l.

Definition scalar (z : Z) : ndarray Z := mk_ndarray [] [z].

Definition vector (l : list Z) : ndarray Z := mk_ndarray [length l] l.

Definition forward (multi : bool) (w : Z) (xb : list Z)
  : Result string (Preds (list Z)) :=
  if existsb (fun x => (x <? 0)%Z) xb
  then Raise (FrameworkError "negative input"%string)
  else
    let out := map (fun x => (w * x)%Z) xb in
    if multi then Ok (Multiple [out; map Z.succ out]) else Ok (Single out).

Definition abs_error (gt p : list Z) : list Z :=
  map (fun gp => Z.abs (fst gp - snd gp)) (combine gt p).

Definition has_key (k : string) (kw : list (string * Z)) : bool :=
  existsb (fun kv => String.eqb (fst kv) k) kw.

Definition loss (args : list (Arg Z (list Z))) (kw : list (string * Z))
  : Result string (ndarray Z) :=
  match args with
  | ABatch gt :: ATensor p :: _ =>
      if length gt =? length p
      then if has_key "reduce" kw
           then Ok (scalar (zsum (abs_error gt p)))
           else Ok (vector (abs_error gt p))
      else Raise (FrameworkError "incompatible shapes"%string)
  | _ => Raise (FrameworkError "bad arguments"%string)
  end.

(** addition, the right operand broadcast as a scalar *)
Definition add (a b : ndarray Z) : ndarray Z :=
  mk_ndarray (shape a) (map (fun x => (x + zsum (data b))%Z) (data a)).

Definition aux_losses (w : Z) (xb : list Z) : list (ndarray Z) :=
  if (w =? 0)%Z then [] else [scalar w].

Definition gradient (w : Z) (tb : Batch Z) (l : ndarray Z)
  : Result string Z :=
  if (1000 <? zsum (data l))%Z
  then Raise (FrameworkError "gradient overflow"%string)
  else Ok (Z.sgn (zsum (data l))).

Definition sgd (o : nat) (g w : Z) : Result string (nat * Z) :=
  Ok (S o, (w - g)%Z).

Definition count_rows (m : Z) (gt : list Z) (p : Preds (list Z))
  : Result string Z :=
  Ok (m + Z.of_nat (length gt))%Z.

Definition average (l : list Z) : Z := (zsum l / Z.of_nat (length l))%Z.

Definition types : Types := {|
  Row := Z; Tensor := list Z; Loss := ndarray Z; Grad := Z; Weights := Z;
  OptState := nat; MetricState := Z; KwVal := Z; Scalar := Z; Err := string
|}.

Definition framework (multi : bool) : Framework types :=
  Build_Framework types
    (forward multi)                 (* model_call *)
    aux_losses                      (* model_losses *)
    loss                            (* loss_fn *)
    add (scalar 0)                  (* loss_add, loss_zero *)
    gradient                        (* tape_gradient *)
    sgd                             (* apply_gradients *)
    count_rows scalar               (* metric_update, metric_result *)
    (fun l => l) average            (* numpy, mean *)
    (fun _ _ n => rev (seq 0 n))    (* shuffle_order *)
    (fun b => (0 <? b)%Z).          (* buffer_ok *)

(** five examples, batches of two, two epochs, progress shown with a
    metric *)
Definition config (y : option (list Z)) : @Config types :=
  @mk_Config types [1; 2; 3; 4; 5]%Z y None 2 2 1024 true
             (Some "rows"%string).

Definition world (w : Z) : @World types := @mk_World types w O 0%Z.

Definition unsupervised : @Config types := config None.

Definition supervised : @Config types :=
  config (Some [2; 4; 6; 8; 10]%Z).

(** a model with two outputs, a loss called with a keyword, one epoch
    over three labelled examples, no metric *)
Definition two_outputs : @Config types :=
  @mk_Config types [1; 2; 3]%Z (Some [1; 1; 1]%Z)
             (Some [("reduce"%string, 1%Z)]) 1 2 1024 true None.

(** the third example makes the forward pass of the second batch raise *)
Definition failing : @Config types :=
  @mk_Config types [1; 2; -3; 4; 5]%Z None None 2 2 1024 true
             (Some "rows"%string).

Definition no_epochs : @Config types :=
  @mk_Config types [1; 2; 3; 4; 5]%Z None None 0 2 1024 true
             (Some "rows"%string).

Definition no_epochs_no_batch : @Config types :=
  @mk_Config types [1; 2; 3; 4; 5]%Z None None 0 0 1024 true
             (Some "rows"%string).

Definition w0 : @World types := world 1.

(** a negative number of epochs *)
Definition negative_epochs : @Config types :=
  @mk_Config types [1; 2; 3; 4; 5]%Z None None (-3) 2 1024 true
             (Some "rows"%string).

(** two labels for five examples *)
Definition too_few_labels : @Config types :=
  @mk_Config types [1; 2; 3; 4; 5]%Z (Some [2; 4]%Z) None 2 2 1024 true
             (Some "rows"%string).

(** no example at all *)
Definition no_examples : @Config types :=
  @mk_Config types [] None None 2 2 1024 true (Some "rows"%string).

(** the unsupervised call, not verbose *)
Definition quiet : @Config types :=
  @mk_Config types [1; 2; 3; 4; 5]%Z None None 2 2 1024 false
             (Some "rows"%string).

(** a loss function that keeps a trailing dimension: shape [(n, 1)] *)
Definition loss_2d (args : list (Arg Z (list Z))) (kw : list (string * Z))
  : Result string (ndarray Z) :=
  match args with
  | ABatch gt :: ATensor p :: _ =>
      Ok (mk_ndarray [length gt; 1] (abs_error gt p))
  | _ => Raise (FrameworkError "bad arguments"%string)
  end.

Definition per_feature : Framework types :=
  Build_Framework types
    (forward false) aux_losses loss_2d add (scalar 0) gradient sgd
    count_rows scalar (fun l => l) average
    (fun _ _ n => rev (seq 0 n)) (fun b => (0 <? b)%Z).

(** the model with one output, and the model with two *)
Definition plain : Framework types := framework false.

Definition twin : Framework types := framework true.

End Toy.

(** * Facts *)

Section DatasetFacts.
Context {A : Type}.

(** Reading every position once, in order, gives the list back. *)
Lemma gather_seq (l : list A) : Dataset.gather l (seq 0 (length l)) = l.
Proof.
  unfold Dataset.gather.
  assert (G : forall pre l0, l = pre ++ l0 ->
            flat_map (fun i => match nth_error l i with
                               | Some x => [x]
                               | None => []
                               end) (seq (length pre) (length l0)) = l0).
  { intros pre l0; revert pre.
    induction l0 as [|x l0 IH]; intros pre E; simpl; [reflexivity|].
    rewrite E at 1.
    rewrite nth_error_app2, Nat.sub_diag by lia. simpl. f_equal.
    specialize (IH (pre ++ [x])).
    rewrite length_app, Nat.add_comm in IH. simpl in IH.
    apply IH. rewrite <- app_assoc. exact E. }
  exact (G [] l eq_refl).
Qed.

(** A shuffle that visits every position exactly once loses nothing and
    repeats nothing. *)
Lemma gather_permutation (l : list A) (order : list nat) :
  Permutation order (seq 0 (length l)) -> Permutation (Dataset.gather l order) l.
Proof.
  intros P. rewrite <- (gather_seq l) at 2.
  unfold Dataset.gather. apply Permutation_flat_map. exact P.
Qed.

Lemma chunks_concat (b : nat) : 0 < b ->
  forall fuel (l : list A), length l <= fuel ->
    concat (Dataset.chunks fuel b l) = l.
Proof.
  intros Hb. induction fuel as [|fuel IH]; intros l Hl.
  - destruct l; [reflexivity | simpl in Hl; lia].
  - destruct l as [|x l]; [reflexivity|].
    cbn [Dataset.chunks concat]. rewrite IH.
    + apply firstn_skipn.
    + rewrite length_skipn. cbn [length] in *. lia.
Qed.

Lemma chunks_bounds (b : nat) : 0 < b ->
  forall fuel (l : list A),
    Forall (fun c => 0 < length c <= b) (Dataset.chunks fuel b l).
Proof.
  intros Hb. induction fuel as [|fuel IH]; intros l; [constructor|].
  destruct l as [|x l]; [constructor|].
  cbn [Dataset.chunks]. constructor; [|apply IH].
  rewrite length_firstn. cbn [length]. lia.
Qed.

(** The number of groups is the least [k] with [n <= k * b]. *)
Lemma chunks_count (b : nat) : 0 < b ->
  forall fuel (l : list A), length l <= fuel ->
    let k := Z.of_nat (length (Dataset.chunks fuel b l)) in
    let n := Z.of_nat (length l) in
    ((k - 1) * Z.of_nat b < n <= k * Z.of_nat b)%Z.
Proof.
  intros Hb. induction fuel as [|fuel IH]; intros l Hl; cbv zeta.
  - destruct l; cbn [Dataset.chunks length] in *; lia.
  - destruct l as [|x l]; [cbn [Dataset.chunks length]; lia|].
    cbn [Dataset.chunks length].
    specialize (IH (skipn b (x :: l))).
    rewrite length_skipn in IH. cbn [length] in *.
    assert (F : S (length l) - b <= fuel) by lia.
    specialize (IH F). cbv zeta in *.
    destruct (le_lt_dec (S (length l)) b) as [Hle|Hgt].
    + replace (S (length l) - b) with 0 in IH by lia.
      assert (length (Dataset.chunks fuel b (skipn b (x :: l))) = 0) by nia.
      nia.
    + nia.
Qed.
Lemma gather_incl (l : list A) (order : list nat) :
  incl (Dataset.gather l order) l.
Proof.
  intros x Hx. unfold Dataset.gather in Hx.
  apply in_flat_map in Hx. destruct Hx as (i & _ & Hi).
  destruct (nth_error l i) as [y|] eqn:E; [|destruct Hi].
  destruct Hi as [<-|[]]. eapply nth_error_In; eassumption.
Qed.

Lemma chunks_incl (b fuel : nat) : forall (l c : list A),
  In c (Dataset.chunks fuel b l) -> incl c l.
Proof.
  induction fuel as [|fuel IH]; intros l c Hc; [destruct Hc|].
  destruct l as [|x l]; [destruct Hc|].
  cbn [Dataset.chunks] in Hc. destruct Hc as [<-|Hc].
  - intros y Hy. rewrite <- (firstn_skipn b (x :: l)).
    apply in_or_app. left. exact Hy.
  - intros y Hy. rewrite <- (firstn_skipn b (x :: l)).
    apply in_or_app. right. eapply IH; eassumption.
Qed.

End DatasetFacts.

Lemma combine_fst_snd {A B : Type} (c : list (A * B)) :
  combine (map fst c) (map snd c) = c.
Proof.
  induction c as [|[a b] c IH]; cbn; [reflexivity | rewrite IH; reflexivity].
Qed.

Lemma map_fst_combine_same_length {A B : Type} (xs : list A) :
  forall ys : list B, length xs = length ys -> map fst (combine xs ys) = xs.
Proof.
  induction xs as [|x xs IH]; intros [|y ys] L; cbn in *;
    try reflexivity; try discriminate.
  rewrite IH; [reflexivity | congruence].
Qed.

Ltac outcome_cases SO :=
  inversion SO; subst; clear SO;
  repeat match goal with
         | H : gradient_outcome _ _ _ _ _ _ _ _ |- _ =>
             inversion H; subst; clear H
         | H : report_outcome _ _ _ _ _ _ _ _ |- _ =>
             inversion H; subst; clear H
         end;
  cbn [app] in *.

Ltac in_cases :=
  repeat match goal with
         | H : In _ [] |- _ => destruct H
         | H : In _ (_ :: _) |- _ => destruct H as [H|H]
         | H : @eq Call _ _ |- _ =>
             first [discriminate H | progress subst
                   | inversion H; clear H; subst]
         end.

Section TrainerFacts.
Context {T : Types} {F : Framework T}.

Local Abbreviation exn := (exn Err).
Local Abbreviation Result := (Result Err).
Local Abbreviation ndarray := (ndarray Scalar).
Local Abbreviation Preds := (Preds Tensor).
Local Abbreviation Arg := (Arg Row Tensor).
Local Abbreviation Slices := (Slices Row).
Local Abbreviation Batch := (Batch Row).

Section RunFacts.
Variable cfg : Config.

(** ** Facts about the arithmetic and the dataset *)

Lemma ceil_div_bounds (n b : Z) : (0 < b)%Z ->
  ((ceil_div n b - 1) * b < n <= ceil_div n b * b)%Z.
Proof.
  intros Hb. unfold ceil_div.
  pose proof (Z.mul_div_le (- n) b Hb).
  pose proof (Z.mul_succ_div_gt (- n) b Hb).
  lia.
Qed.

Lemma ceil_div_unique (n b k : Z) : (0 < b)%Z ->
  ((k - 1) * b < n <= k * b)%Z -> k = ceil_div n b.
Proof.
  intros Hb Hk. pose proof (ceil_div_bounds n b Hb). nia.
Qed.

Lemma batch_count {A : Type} (b : nat) (l : list A) : 0 < b ->
  Z.of_nat (length (Dataset.batch b l))
  = ceil_div (Z.of_nat (length l)) (Z.of_nat b).
Proof.
  intros Hb. apply ceil_div_unique; [lia|].
  apply (chunks_count b Hb (length l) l). lia.
Qed.

(** ** Facts about the loops *)

Lemma batches_loop_inv (bs : list Batch) : forall w w' sls r,
  batches_loop cfg bs w = (w', sls, r) ->
  (r = Ok tt -> length sls = length bs) /\
  (forall e, r = Raise e -> sls <> []) /\
  forall s sl, nth_error sls s = Some sl ->
    exists tb w1 w2 r1,
      nth_error bs s = Some tb /\ run_step cfg tb w1 = (w2, sl, r1) /\
      (r1 = Ok tt \/ (r1 = r /\ S s = length sls)).
Proof.
  induction bs as [|tb bs IH]; intros w w' sls r H; cbn [batches_loop] in H.
  - inversion H; subst. repeat split; try discriminate.
    intros [|s] sl; discriminate.
  - destruct (run_step cfg tb w) as [[w1 sl1] [[]|e1]] eqn:E1.
    + destruct (batches_loop cfg bs w1) as [[w2 sls2] r2] eqn:E2.
      inversion H; subst; clear H.
      destruct (IH _ _ _ _ E2) as (L & NE & ST).
      split; [|split].
      * intros ->. cbn [length]. rewrite L; reflexivity.
      * intros e _. discriminate.
      * intros [|s] sl Hs; cbn [nth_error] in Hs.
        -- inversion Hs; subst. exists tb, w, w1, (Ok tt).
           repeat split; auto.
        -- destruct (ST _ _ Hs) as (tb' & wa & wb & r1 & ? & ? & D).
           exists tb', wa, wb, r1. repeat split; auto.
           destruct D as [|[? ?]]; [left; assumption|].
           right; split; [assumption | cbn [length]; lia].
    + inversion H; subst; clear H.
      split; [discriminate|]. split; [intros; discriminate|].
      intros [|[|s]] sl Hs; cbn [nth_error] in Hs; try discriminate.
      inversion Hs; subst. exists tb, w, w', (Raise e1).
      repeat split; auto.
Qed.

Lemma epochs_loop_inv (train_data : Slices) (nmb : Z) (todo : nat) :
  forall epoch w w' els r,
  epochs_loop cfg train_data nmb todo epoch w = (w', els, r) ->
  (r = Ok tt -> length els = todo) /\
  forall e el, nth_error els e = Some el ->
    progbar el = (if verbose cfg then Some (nmb, 1%Z) else None) /\
    exists w1 w2 r1,
      batches_loop cfg (iterate cfg train_data (epoch + e)) w1 = (w2, steps el, r1) /\
      (r1 = Ok tt \/ (r1 = r /\ S e = length els)).
Proof.
  induction todo as [|todo IH]; intros epoch w w' els r H;
    cbn [epochs_loop] in H.
  - inversion H; subst. split; [reflexivity|].
    intros [|e] el; discriminate.
  - unfold run_epoch in H.
    destruct (batches_loop cfg (iterate cfg train_data epoch) w)
      as [[w1 sls1] [[]|e1]] eqn:E1.
    + destruct (epochs_loop cfg train_data nmb todo (S epoch) w1)
        as [[w2 els2] r2] eqn:E2.
      inversion H; subst; clear H.
      destruct (IH _ _ _ _ _ E2) as (L & ST).
      split.
      * intros ->. cbn [length]. rewrite L; reflexivity.
      * intros [|e] el He; cbn [nth_error] in He.
        -- inversion He; subst. cbn [progbar steps]. split; [reflexivity|].
           exists w, w1, (Ok tt). rewrite Nat.add_0_r. auto.
        -- destruct (ST _ _ He) as (PB & wa & wb & r1 & Hb & D).
           split; [exact PB|].
           exists wa, wb, r1. rewrite Nat.add_succ_r. split; [exact Hb|].
           destruct D as [|[? ?]]; [left; assumption|].
           right; split; [assumption | cbn [length]; lia].
    + inversion H; subst; clear H. split; [discriminate|].
      intros [|[|e]] el He; cbn [nth_error] in He; try discriminate.
      inversion He; subst. cbn [progbar steps]. split; [reflexivity|].
      exists w, w', (Raise e1). rewrite Nat.add_0_r. auto.
Qed.

Lemma trainer_run (w : World) :
  trainer cfg w = (final_world cfg w, log_of cfg w, result_of cfg w).
Proof.
  unfold final_world, log_of, result_of.
  destruct (trainer cfg w) as [[w' log] r]. reflexivity.
Defined.

(** What [trainer] does before and around the loops. *)
Lemma trainer_inv (w w' : World) (log : list EpochLog) (r : Result unit) :
  trainer cfg w = (w', log, r) ->
  (w' = w /\ log = [] /\ exists e, r = Raise e) \/
  exists train_data,
    from_tensor_slices (X_train cfg) (y_train cfg) = Ok train_data /\
    buffer_ok (buffer_size cfg) = true /\
    (0 < batch_size cfg)%Z /\
    epochs_loop cfg train_data
      (ceil_div (Z.of_nat (length (X_train cfg))) (batch_size cfg))
      (Z.to_nat (epochs cfg)) 0 w = (w', log, r).
Proof.
  unfold trainer, shuffle_batch_check, n_minibatch_of. intros H.
  destruct (from_tensor_slices (X_train cfg) (y_train cfg)) as [ds|e] eqn:E;
    [|left; inversion H; eauto].
  destruct (buffer_ok (buffer_size cfg)) eqn:EB; cbn [negb] in H;
    [|left; inversion H; eauto].
  destruct ((int64_limit <=? batch_size cfg)%Z
            || (batch_size cfg <? - int64_limit)%Z);
    [left; inversion H; eauto|].
  destruct (Z.leb_spec (batch_size cfg) 0);
    [left; inversion H; eauto|].
  destruct (Z.eqb_spec (batch_size cfg) 0); [lia|].
  right. exists ds. auto.
Qed.

(** Every batch log of a run is the log of the loop body on the batch
    the dataset yields at that position; only the last one started can
    have raised. *)
Lemma trainer_step_at (w w' : World) (log : list EpochLog) (r : Result unit)
    (e s : nat) (sl : StepLog) :
  trainer cfg w = (w', log, r) ->
  step_at log e s = Some sl ->
  exists train_data tb w1 w2 r1,
    from_tensor_slices (X_train cfg) (y_train cfg) = Ok train_data /\
    (0 < batch_size cfg)%Z /\
    nth_error (iterate cfg train_data e) s = Some tb /\
    run_step cfg tb w1 = (w2, sl, r1) /\
    (r1 = Ok tt \/ (r1 = r /\ last_step log e s)).
Proof.
  intros H At. unfold step_at in At.
  destruct (nth_error log e) as [el|] eqn:Ee; [|discriminate].
  destruct (trainer_inv _ _ _ _ H) as [(_ & -> & _)|(ds & Hds & _ & Hb & HL)].
  { destruct e; discriminate. }
  destruct (epochs_loop_inv _ _ _ _ _ _ _ _ HL) as (_ & HE).
  destruct (HE _ _ Ee) as (_ & wa & wb & rb & HB & DB).
  destruct (batches_loop_inv _ _ _ _ _ HB) as (_ & _ & HS).
  destruct (HS _ _ At) as (tb & w1 & w2 & r1 & Htb & Hrun & DS).
  exists ds, tb, w1, w2, r1. rewrite Nat.add_0_l in Htb.
  repeat split; auto.
  destruct DS as [|[-> Hlast]]; [left; assumption|].
  destruct DB as [->|[-> Hlast']]; [left; reflexivity|].
  right. split; [reflexivity|]. split; [assumption|]. eauto.
Qed.

(** *** One pass of the loop body *)

Lemma compute_loss_effective (k : option kwargs) (args : list Arg) :
  compute_loss k args = call_loss args (effective_kwargs k).
Proof.
  destruct k as [kw|]; [|reflexivity].
  unfold compute_loss, effective_kwargs.
  destruct (kwargs_truthy (Some kw)); reflexivity.
Qed.

Lemma gradient_step_outcome (tb : Batch) (xb : list Row)
    (yo : option (list Row)) (w w' : World) (cs : StepLog)
    (r : Result (list Row * Preds * Loss)) :
  unpack (y_train cfg) tb = Ok (xb, yo) ->
  gradient_step cfg tb (w, []) = ((w', cs), r) ->
  gradient_outcome cfg w tb xb (select_ground_truth (y_train cfg) xb yo)
                   w' cs r.
Proof.
  intros HU H. unfold gradient_step, bind, lift in H. rewrite HU in H.
  unfold call_model in H. cbn beta iota in H.
  destruct (model_call (weights w) xb) as [preds|e] eqn:EF;
    [|inversion H; subst; constructor; assumption].
  rewrite compute_loss_effective in H.
  unfold call_loss, read_model_losses, call_gradient, call_apply, ret in H.
  cbn [app] in H.
  destruct (loss_fn _ _) as [l0|e] eqn:EL in H;
    [|inversion H; subst; constructor; assumption].
  fold (total_loss w xb l0) in H.
  destruct (tape_gradient _ _ _) as [g|e] eqn:EG in H;
    [|inversion H; subst; constructor; assumption].
  destruct (apply_gradients _ _ _) as [[o' W']|e] eqn:EA in H;
    inversion H; subst; econstructor; eassumption.
Qed.

Lemma report_progress_outcome (gt : list Row) (preds : Preds) (loss : Loss)
    (w w' : World) (cs0 cs : StepLog) (r : Result unit) :
  report_progress cfg gt preds loss (w, cs0) = ((w', cs), r) ->
  exists cs', cs = cs0 ++ cs' /\ report_outcome cfg w gt preds loss w' cs' r.
Proof.
  intros H. unfold report_progress, bind, lift in H.
  destruct (display_loss _ _) as [lv|e] eqn:ED in H.
  2:{ inversion H; subst. exists []. rewrite app_nil_r.
      split; [reflexivity | constructor; assumption]. }
  destruct (log_metric cfg) as [name|] eqn:EM.
  - unfold call_metric, pbar_add, ret in H.
    destruct (metric_update _ _ _) as [m'|e] eqn:EU in H;
      inversion H; subst; clear H.
    + exists [CMetric gt preds (Ok m');
              CPbarAdd 1 [("loss"%string, lv); (name, metric_result m')]].
      rewrite <- app_assoc. split; [reflexivity|].
      econstructor; eassumption.
    + exists [CMetric gt preds (Raise e)]. split; [reflexivity|].
      econstructor; eassumption.
  - unfold pbar_add, ret in H. inversion H; subst; clear H.
    exists [CPbarAdd 1 [("loss"%string, lv)]]. split; [reflexivity|].
    constructor; assumption.
Qed.

Lemma run_step_outcome (tb : Batch) (xb : list Row) (yo : option (list Row))
    (w w' : World) (sl : StepLog) (r : Result unit) :
  unpack (y_train cfg) tb = Ok (xb, yo) ->
  run_step cfg tb w = (w', sl, r) ->
  step_outcome cfg w tb xb (select_ground_truth (y_train cfg) xb yo) w' sl r.
Proof.
  intros HU H. unfold run_step, train_step, bind in H.
  destruct (gradient_step cfg tb (w, [])) as [[w1 cs] [[[gt preds] loss]|e]]
    eqn:EG.
  - pose proof (gradient_step_outcome _ _ _ _ _ _ _ HU EG) as GO.
    assert (gt = select_ground_truth (y_train cfg) xb yo) as ->
      by (inversion GO; reflexivity).
    destruct (verbose cfg) eqn:EV.
    + destruct (report_progress cfg _ preds loss (w1, cs)) as [[w2 cs2] r2]
        eqn:ER.
      inversion H; subst; clear H.
      destruct (report_progress_outcome _ _ _ _ _ _ _ _ ER) as (cs' & -> & RO).
      eapply SO_verbose; eassumption.
    + unfold ret in H. inversion H; subst; clear H.
      eapply SO_quiet; eassumption.
  - inversion H; subst; clear H. apply SO_raise.
    eapply gradient_step_outcome; eassumption.
Qed.

(** What the dataset yields are batches of the training set, which the
    loop body unpacks without error. *)
Lemma batch_at_training_set (e s : nat) (tb : Batch) :
  batch_at cfg e s = Some tb ->
  batch_of_training_set cfg tb /\
  exists yo,
    unpack (y_train cfg) tb = Ok (batch_inputs tb, yo) /\
    select_ground_truth (y_train cfg) (batch_inputs tb) yo
    = batch_ground_truth tb.
Proof.
  unfold batch_at, from_tensor_slices, batch_of_training_set, iterate.
  destruct (y_train cfg) as [ys|].
  - destruct (length (X_train cfg) =? length ys); [|discriminate].
    intros H. apply nth_error_In, in_map_iff in H.
    destruct H as (c & <- & Hc). cbn [batch_inputs batch_ground_truth unpack].
    split.
    + rewrite !length_map. split; [reflexivity|].
      intros p Hp. unfold shuffled in Hc.
      apply chunks_incl in Hc. eapply gather_incl. apply Hc.
      revert Hp. clear. induction c as [|[a b] c IH]; cbn; [tauto|].
      intros [<-|H]; auto.
    + eexists. split; reflexivity.
  - intros H. apply nth_error_In, in_map_iff in H.
    destruct H as (c & <- & Hc). cbn [batch_inputs batch_ground_truth unpack].
    split.
    + intros x Hx. unfold shuffled in Hc. apply chunks_incl in Hc.
      eapply gather_incl. apply Hc. exact Hx.
    + eexists. split; reflexivity.
Qed.

(** The link between a run and the loop body: every batch log of a run
    is an outcome of the body on a batch of the training set. *)
Lemma trainer_step_outcome (w w' : World) (log : list EpochLog)
    (r : Result unit) (e s : nat) (sl : StepLog) :
  trainer cfg w = (w', log, r) ->
  step_at log e s = Some sl ->
  exists tb w1 w2 r1,
    batch_at cfg e s = Some tb /\
    batch_of_training_set cfg tb /\
    step_outcome cfg w1 tb (batch_inputs tb) (batch_ground_truth tb) w2 sl r1 /\
    (r1 = Ok tt \/ (r1 = r /\ last_step log e s)).
Proof.
  intros H At.
  destruct (trainer_step_at _ _ _ _ _ _ _ H At)
    as (ds & tb & w1 & w2 & r1 & Hds & _ & Htb & Hrun & D).
  assert (BA : batch_at cfg e s = Some tb)
    by (unfold batch_at; rewrite Hds; exact Htb).
  destruct (batch_at_training_set _ _ _ BA) as (WF & yo & HU & HG).
  exists tb, w1, w2, r1. repeat split; auto.
  rewrite <- HG. eapply run_step_outcome; eassumption.
Qed.

(** ** Properties of the loop *)

(** C2: for every batch of every epoch, the ground truth handed to the
    loss function and to the metric is the input batch itself when
    [y_train] is [None], and otherwise the label batch paired with the
    input batch: as long as the input batch, and position by position the
    label of that example in the training set. *)
Theorem ground_truth_of_every_batch (w w' : World) (log : list EpochLog)
    (r : Result unit) (e s : nat) (sl : StepLog) :
  trainer cfg w = (w', log, r) ->
  step_at log e s = Some sl ->
  exists tb,
    batch_at cfg e s = Some tb /\
    (exists rp, In (CForward (batch_inputs tb) rp) sl) /\
    (forall xb rp, In (CForward xb rp) sl -> xb = batch_inputs tb) /\
    (forall args kw rl, In (CLoss args kw rl) sl ->
       hd_error args = Some (ABatch (batch_ground_truth tb))) /\
    (forall gt p rm, In (CMetric gt p rm) sl -> gt = batch_ground_truth tb) /\
    match y_train cfg with
    | None => batch_ground_truth tb = batch_inputs tb
    | Some ys =>
        length (batch_ground_truth tb) = length (batch_inputs tb) /\
        incl (combine (batch_inputs tb) (batch_ground_truth tb))
             (combine (X_train cfg) ys)
    end.
Proof.
  intros H At.
  destruct (trainer_step_outcome _ _ _ _ _ _ _ H At)
    as (tb & w1 & w2 & r1 & BA & WF & SO & _).
  exists tb. split; [exact BA|].
  assert (HA : forall preds,
             hd_error (loss_args (batch_ground_truth tb) preds)
             = Some (ABatch (batch_ground_truth tb)))
    by (intros [p|ps]; reflexivity).
  split; [|split; [|split; [|split]]].
  - outcome_cases SO; eexists; left; reflexivity.
  - intros xb rp Hin. outcome_cases SO; in_cases; reflexivity.
  - intros args kw rl Hin. outcome_cases SO; in_cases; apply HA.
  - intros gt p rm Hin. outcome_cases SO; in_cases; reflexivity.
  - unfold batch_of_training_set in WF.
    destruct (y_train cfg) as [ys|], tb as [xb|xb yb];
      cbn [batch_inputs batch_ground_truth]; try contradiction.
    + destruct WF as [L I]. split; [symmetry; exact L | exact I].
    + reflexivity.
Qed.

Lemma effective_kwargs_supplied (d : kwargs) :
  effective_kwargs (Some d) = d.
Proof. destruct d; reflexivity. Qed.

(** C3: for every batch, the loss function is called on the ground truth
    followed by the prediction when the forward pass returned one tensor,
    and on the ground truth followed by all the outputs, in the model's
    order, when it returned a sequence; keyword arguments that were
    supplied are the keyword arguments of every such call (none supplied:
    none passed).  The call happens whenever the forward pass returned. *)
Theorem loss_arguments_of_every_batch (w w' : World) (log : list EpochLog)
    (r : Result unit) (e s : nat) (sl : StepLog) :
  trainer cfg w = (w', log, r) ->
  step_at log e s = Some sl ->
  exists tb,
    batch_at cfg e s = Some tb /\
    (forall args kw rl, In (CLoss args kw rl) sl ->
       exists preds,
         In (CForward (batch_inputs tb) (Ok preds)) sl /\
         match preds with
         | Single p => args = [ABatch (batch_ground_truth tb); ATensor p]
         | Multiple ps =>
             args = ABatch (batch_ground_truth tb) :: map ATensor ps
         end /\
         match loss_fn_kwargs cfg with
         | Some d => kw = d
         | None => kw = []
         end /\
         rl = loss_fn args kw) /\
    (forall xb preds, In (CForward xb (Ok preds)) sl ->
       exists args kw rl, In (CLoss args kw rl) sl).
Proof.
  intros H At.
  destruct (trainer_step_outcome _ _ _ _ _ _ _ H At)
    as (tb & w1 & w2 & r1 & BA & WF & SO & _).
  exists tb. split; [exact BA|].
  assert (HA : forall preds,
             match preds with
             | Single p =>
                 loss_args (batch_ground_truth tb) preds
                 = [ABatch (batch_ground_truth tb); ATensor p]
             | Multiple ps =>
                 loss_args (batch_ground_truth tb) preds
                 = ABatch (batch_ground_truth tb) :: map ATensor ps
             end)
    by (intros [p|ps]; reflexivity).
  assert (HK : match loss_fn_kwargs cfg with
               | Some d => effective_kwargs (loss_fn_kwargs cfg) = d
               | None => effective_kwargs (loss_fn_kwargs cfg) = []
               end).
  { destruct (loss_fn_kwargs cfg) as [d|];
      [apply effective_kwargs_supplied | reflexivity]. }
  split.
  - intros args kw rl Hin.
    outcome_cases SO; in_cases; exists preds;
      (split; [cbn; tauto|]); (split; [apply HA|]);
      (split; [exact HK | congruence]).
  - intros xb preds Hin.
    outcome_cases SO; in_cases; do 3 eexists; right; left; reflexivity.
Qed.

(** C4: for every batch, the loss whose gradient is taken is the value
    the loss function returned when the model exposes no auxiliary
    losses, and that value plus the sum of the auxiliary losses when it
    exposes some. *)
Theorem total_loss_of_every_batch (w w' : World) (log : list EpochLog)
    (r : Result unit) (e s : nat) (sl : StepLog) :
  trainer cfg w = (w', log, r) ->
  step_at log e s = Some sl ->
  forall loss rg, In (CGradient loss rg) sl ->
    exists tb w1 args kw l0,
      batch_at cfg e s = Some tb /\
      In (CForward (batch_inputs tb)
                   (model_call (weights w1) (batch_inputs tb))) sl /\
      In (CLoss args kw (Ok l0)) sl /\
      let aux := model_losses (weights w1) (batch_inputs tb) in
      (aux = [] -> loss = l0) /\
      (aux <> [] -> loss = loss_add l0 (fold_left loss_add aux loss_zero)) /\
      rg = tape_gradient (weights w1) tb loss.
Proof.
  intros H At loss rg Hin.
  destruct (trainer_step_outcome _ _ _ _ _ _ _ H At)
    as (tb & w1 & w2 & r1 & BA & WF & SO & _).
  assert (HT : forall l0,
             let aux := model_losses (weights w1) (batch_inputs tb) in
             (aux = [] -> total_loss w1 (batch_inputs tb) l0 = l0) /\
             (aux <> [] ->
              total_loss w1 (batch_inputs tb) l0
              = loss_add l0 (fold_left loss_add aux loss_zero))).
  { intros l0. unfold total_loss, add_model_losses, py_sum. cbv zeta.
    destruct (model_losses (weights w1) (batch_inputs tb)).
    - split; [reflexivity | congruence].
    - split; [discriminate | reflexivity]. }
  exists tb, w1.
  outcome_cases SO; in_cases;
    match goal with
    | HL : loss_fn ?a ?k = Ok ?l |- _ => exists a, k, l
    end;
    (split; [exact BA|]);
    (split; [left; congruence|]);
    (split; [right; left; reflexivity|]);
    destruct (HT l0) as [T1 T2];
    (split; [exact T1|]); (split; [exact T2 | congruence]).
Qed.

(** *** The displayed loss *)

Lemma shape_is_spec (a : ndarray) (n : Z) :
  shape_is a n = true <-> map Z.of_nat (shape a) = [n].
Proof.
  unfold shape_is. destruct (shape a) as [|d [|d' sh]]; cbn [map].
  - split; discriminate.
  - rewrite Z.eqb_eq. split; [intros ->; reflexivity | congruence].
  - split; discriminate.
Qed.

Lemma display_loss_scalar (B : Z) (lv : ndarray) :
  shape lv = [] -> display_loss B lv = Ok lv.
Proof.
  intros E. unfold display_loss, shape_nonempty. rewrite E.
  rewrite andb_false_r. reflexivity.
Qed.

Lemma display_loss_full (B : Z) (lv : ndarray) :
  map Z.of_nat (shape lv) = [B] -> display_loss B lv = Ok lv.
Proof.
  intros E. apply shape_is_spec in E. unfold display_loss. rewrite E.
  reflexivity.
Qed.

Lemma display_loss_pads (B : Z) (lv : ndarray) :
  shape lv <> [] -> map Z.of_nat (shape lv) <> [B] ->
  display_loss B lv = pad_with_mean B lv.
Proof.
  intros NE ND. unfold display_loss, shape_nonempty.
  destruct (shape_is lv B) eqn:E.
  - apply shape_is_spec in E. contradiction.
  - destruct (shape lv); [contradiction | reflexivity].
Qed.

Lemma pad_with_mean_short (B : Z) (lv lv' : ndarray) (k : nat) :
  shape lv = [k] -> (Z.of_nat k < B)%Z ->
  pad_with_mean B lv = Ok lv' ->
  lv' = mk_ndarray [Z.to_nat B]
          (data lv ++ repeat (mean (data lv)) (Z.to_nat B - k)).
Proof.
  intros E Hk. unfold pad_with_mean, np_ones_times, shape0, np_r_.
  rewrite E. destruct (Z.ltb_spec (B - Z.of_nat k) 0); [lia|].
  destruct (too_big <=? B - Z.of_nat k)%Z; [discriminate|].
  cbn [shape data].
  replace (Z.to_nat (B - Z.of_nat k)) with (Z.to_nat B - k) by lia.
  replace (k + (Z.to_nat B - k)) with (Z.to_nat B) by lia.
  congruence.
Qed.

(** C5: in a verbose run, for every batch whose per-example loss vector
    is shorter than the batch size, the loss shown is the loss vector
    followed by copies of its mean, up to length [batch_size]; the one
    gradient call of the batch is on the loss tensor itself, and the one
    optimizer step applies the gradients of that call, both made from the
    state before the batch. *)
Theorem short_loss_is_padded_for_display_only (w w' : World)
    (log : list EpochLog) (r : Result unit) (e s : nat) (sl : StepLog) :
  trainer cfg w = (w', log, r) ->
  step_at log e s = Some sl ->
  verbose cfg = true ->
  forall n vals, In (CPbarAdd n vals) sl ->
    exists tb w1 loss g ow,
      batch_at cfg e s = Some tb /\
      In (CGradient loss (Ok g)) sl /\
      tape_gradient (weights w1) tb loss = Ok g /\
      In (CApply g (Ok ow)) sl /\
      apply_gradients (opt_state w1) g (weights w1) = Ok ow /\
      (forall loss' rg, In (CGradient loss' rg) sl -> loss' = loss) /\
      (forall g' ra, In (CApply g' ra) sl -> g' = g) /\
      forall k, shape (numpy loss) = [k] ->
                (Z.of_nat k < batch_size cfg)%Z ->
        hd_error vals
        = Some ("loss"%string,
                mk_ndarray [Z.to_nat (batch_size cfg)]
                  (data (numpy loss)
                   ++ repeat (mean (data (numpy loss)))
                             (Z.to_nat (batch_size cfg) - k))).
Proof.
  intros H At V n vals Hin.
  destruct (trainer_step_outcome _ _ _ _ _ _ _ H At)
    as (tb & w1 & w2 & r1 & BA & WF & SO & _).
  exists tb, w1.
  assert (P : forall loss lv k,
             display_loss (batch_size cfg) (numpy loss) = Ok lv ->
             shape (numpy loss) = [k] -> (Z.of_nat k < batch_size cfg)%Z ->
             lv = mk_ndarray [Z.to_nat (batch_size cfg)]
                    (data (numpy loss)
                     ++ repeat (mean (data (numpy loss)))
                               (Z.to_nat (batch_size cfg) - k))).
  { intros loss lv k HD E Hk.
    rewrite display_loss_pads in HD.
    - exact (pad_with_mean_short _ _ _ k E Hk HD).
    - rewrite E. discriminate.
    - rewrite E. cbn [map]. intros Q. inversion Q. lia. }
  outcome_cases SO; in_cases; try congruence;
    exists (total_loss w1 (batch_inputs tb) l0), g, (o', W');
    (split; [exact BA|]);
    (split; [cbn; tauto|]); (split; [assumption|]);
    (split; [cbn; tauto|]); (split; [assumption|]);
    (split; [intros; in_cases; reflexivity|]);
    (split; [intros; in_cases; reflexivity|]);
    intros k E Hk; cbn [hd_error]; do 2 f_equal; eapply P; eassumption.
Qed.

(** C10: in a verbose run, the loss shown for a batch is the loss value
    as it is when that value is a 0-dimensional scalar or already has
    shape [(batch_size,)]; for every other shape the padding is computed,
    what is shown is its result, and an error of the padding ends the
    run. *)
Theorem padding_attempted_iff_shape_differs (w w' : World)
    (log : list EpochLog) (r : Result unit) (e s : nat) (sl : StepLog) :
  trainer cfg w = (w', log, r) ->
  step_at log e s = Some sl ->
  verbose cfg = true ->
  forall loss g ow, In (CGradient loss (Ok g)) sl -> In (CApply g (Ok ow)) sl ->
    let lv := numpy loss in
    let B := batch_size cfg in
    (shape lv = [] \/ map Z.of_nat (shape lv) = [B] ->
       display_loss B lv = Ok lv /\
       forall n vals, In (CPbarAdd n vals) sl ->
                      hd_error vals = Some ("loss"%string, lv)) /\
    (shape lv <> [] /\ map Z.of_nat (shape lv) <> [B] ->
       display_loss B lv = pad_with_mean B lv /\
       (forall n vals, In (CPbarAdd n vals) sl ->
          exists lv', pad_with_mean B lv = Ok lv' /\
                      hd_error vals = Some ("loss"%string, lv')) /\
       (forall err, pad_with_mean B lv = Raise err ->
          r = Raise err /\ last_step log e s /\ pbar_advance sl = 0%Z)).
Proof.
  intros H At V loss g ow HG HA. cbv zeta.
  destruct (trainer_step_outcome _ _ _ _ _ _ _ H At)
    as (tb & w1 & w2 & r1 & BA & WF & SO & D).
  split.
  - intros Sh.
    assert (HD : display_loss (batch_size cfg) (numpy loss) = Ok (numpy loss))
      by (destruct Sh; [apply display_loss_scalar | apply display_loss_full];
          assumption).
    split; [exact HD|]. intros n vals Hin.
    outcome_cases SO; in_cases; try congruence; cbn [hd_error]; congruence.
  - intros [NE ND].
    pose proof (display_loss_pads _ _ NE ND) as HD.
    split; [exact HD|]. split.
    + intros n vals Hin.
      outcome_cases SO; in_cases; try congruence;
        eexists; (split; [|reflexivity]); congruence.
    + intros err HP. rewrite HP in HD.
      outcome_cases SO; in_cases; try congruence.
      assert (e0 = err) by congruence. subst e0.
      destruct D as [D|[<- L]]; [discriminate|].
      split; [reflexivity|]. split; [exact L | reflexivity].
Qed.

(** C6: whenever a call to the model, the loss function, the tape, the
    optimizer (or the metric) raises, the run ends with that very
    exception: the failing call is the last call of the last batch
    started, nothing was called after it, and nothing before it had
    failed. *)
Theorem errors_propagate_unchanged (w w' : World) (log : list EpochLog)
    (r : Result unit) (e s : nat) (sl : StepLog) (c : Call) (err : exn) :
  trainer cfg w = (w', log, r) ->
  step_at log e s = Some sl ->
  In c sl ->
  call_error c = Some err ->
  r = Raise err /\
  last_step log e s /\
  exists pre, sl = pre ++ [c] /\
              Forall (fun c' => call_error c' = None) pre.
Proof.
  intros H At Hin HE.
  destruct (trainer_step_outcome _ _ _ _ _ _ _ H At)
    as (tb & w1 & w2 & r1 & BA & WF & SO & D).
  assert (R : r1 = Raise err /\
              exists pre, sl = pre ++ [c] /\
                          Forall (fun c' => call_error c' = None) pre).
  { outcome_cases SO; in_cases; cbn in HE; try discriminate;
      inversion HE; subst; (split; [reflexivity|]);
      match goal with
      | |- exists pre, ?l = pre ++ [_] /\ _ =>
          exists (removelast l); split;
          [reflexivity | repeat constructor]
      end. }
  destruct R as [-> R].
  destruct D as [D|[<- L]]; [discriminate|].
  split; [reflexivity|]. split; assumption.
Qed.

(** *** What one epoch iterates over *)

Lemma shuffled_permutation {A : Type} (epoch : nat) (l : list A) :
  shuffle_is_permutation F -> Permutation (shuffled cfg epoch l) l.
Proof. intros P. apply gather_permutation. apply P. Qed.

Lemma iterate_covers (train_data : Slices) (epoch : nat) :
  shuffle_is_permutation F ->
  from_tensor_slices (X_train cfg) (y_train cfg) = Ok train_data ->
  (0 < batch_size cfg)%Z ->
  let bs := iterate cfg train_data epoch in
  Z.of_nat (length bs)
  = ceil_div (Z.of_nat (length (X_train cfg))) (batch_size cfg) /\
  Forall (fun tb => (0 < Z.of_nat (length (batch_inputs tb))
                     <= batch_size cfg)%Z) bs /\
  Permutation (concat (map batch_inputs bs)) (X_train cfg) /\
  match y_train cfg with
  | None => True
  | Some ys =>
      Permutation
        (concat (map (fun tb => combine (batch_inputs tb)
                                        (batch_ground_truth tb)) bs))
        (combine (X_train cfg) ys)
  end.
Proof.
  intros P Hds HB. cbv zeta.
  assert (Hb : 0 < Z.to_nat (batch_size cfg)) by lia.
  assert (Zb : Z.of_nat (Z.to_nat (batch_size cfg)) = batch_size cfg) by lia.
  unfold from_tensor_slices in Hds. unfold iterate.
  destruct (y_train cfg) as [ys|].
  - destruct (Nat.eqb_spec (length (X_train cfg)) (length ys)) as [L|];
      [|discriminate].
    inversion Hds; subst; clear Hds.
    set (l := shuffled cfg epoch (combine (X_train cfg) ys)).
    assert (PL : Permutation l (combine (X_train cfg) ys))
      by (apply shuffled_permutation; exact P).
    assert (LL : length l = length (X_train cfg)).
    { rewrite (Permutation_length PL), length_combine, L.
      apply Nat.min_id. }
    assert (CC : concat (Dataset.batch (Z.to_nat (batch_size cfg)) l) = l)
      by (apply chunks_concat; [exact Hb | apply Nat.le_refl]).
    split; [|split; [|split]].
    + rewrite length_map, batch_count, LL, Zb by exact Hb. reflexivity.
    + apply Forall_map.
      eapply Forall_impl; [|apply (chunks_bounds _ Hb)].
      intros c Hc. cbn beta in Hc. cbn [batch_inputs].
      rewrite length_map. lia.
    + rewrite map_map. cbn [batch_inputs].
      rewrite <- concat_map, CC.
      eapply Permutation_trans; [apply Permutation_map; exact PL|].
      rewrite (map_fst_combine_same_length (X_train cfg) ys L).
      apply Permutation_refl.
    + rewrite map_map. cbn [batch_inputs batch_ground_truth].
      rewrite (map_ext _ (fun c => c)) by (intros; apply combine_fst_snd).
      rewrite map_id, CC. exact PL.
  - inversion Hds; subst; clear Hds.
    set (l := shuffled cfg epoch (X_train cfg)).
    assert (PL : Permutation l (X_train cfg))
      by (apply shuffled_permutation; exact P).
    assert (CC : concat (Dataset.batch (Z.to_nat (batch_size cfg)) l) = l)
      by (apply chunks_concat; [exact Hb | apply Nat.le_refl]).
    split; [|split; [|split]].
    + rewrite length_map, batch_count, (Permutation_length PL), Zb
        by exact Hb. reflexivity.
    + apply Forall_map.
      eapply Forall_impl; [|apply (chunks_bounds _ Hb)].
      intros c Hc. cbn beta in Hc. cbn [batch_inputs]. lia.
    + rewrite map_map. cbn [batch_inputs]. rewrite map_id, CC. exact PL.
    + exact I.
Qed.

(** C1: in a run that returns, every epoch processes the batches the
    shuffled and batched dataset yields: their number is
    [ceil(N / batch_size)], the least [k] with [N <= k * batch_size];
    each holds between one and [batch_size] examples; together they hold
    every example of [X_train] exactly once, each with its own label
    when there are labels; and the forward pass is run on each of them. *)
Theorem every_epoch_covers_the_training_set (w w' : World)
    (log : list EpochLog) :
  shuffle_is_permutation F ->
  trainer cfg w = (w', log, Ok tt) ->
  let N := Z.of_nat (length (X_train cfg)) in
  let B := batch_size cfg in
  length log = Z.to_nat (epochs cfg) /\
  ((ceil_div N B - 1) * B < N <= ceil_div N B * B)%Z /\
  forall e el, nth_error log e = Some el ->
    exists bs,
      (forall s, batch_at cfg e s = nth_error bs s) /\
      Z.of_nat (length bs) = ceil_div N B /\
      length (steps el) = length bs /\
      (forall s tb, nth_error bs s = Some tb ->
         exists sl rp, nth_error (steps el) s = Some sl /\
                       In (CForward (batch_inputs tb) rp) sl) /\
      Forall (fun tb => (0 < Z.of_nat (length (batch_inputs tb)) <= B)%Z) bs /\
      Permutation (concat (map batch_inputs bs)) (X_train cfg) /\
      match y_train cfg with
      | None => True
      | Some ys =>
          Permutation
            (concat (map (fun tb => combine (batch_inputs tb)
                                            (batch_ground_truth tb)) bs))
            (combine (X_train cfg) ys)
      end.
Proof.
  intros P H. cbv zeta.
  destruct (trainer_inv _ _ _ _ H)
    as [(_ & _ & e0 & E0)|(ds & Hds & _ & HB & HL)]; [discriminate|].
  destruct (epochs_loop_inv _ _ _ _ _ _ _ _ HL) as (LE & HE).
  split; [apply LE; reflexivity|].
  split; [apply ceil_div_bounds; exact HB|].
  intros e el He.
  destruct (HE _ _ He) as (_ & wa & wb & rb & HBL & DB).
  assert (rb = Ok tt) as -> by (destruct DB as [|[? _]]; assumption).
  destruct (batches_loop_inv _ _ _ _ _ HBL) as (LS & _ & _).
  specialize (LS eq_refl). cbn [Nat.add] in LS.
  destruct (iterate_covers ds e P Hds HB) as (CNT & SZ & PX & PXY).
  exists (iterate cfg ds e).
  split; [intros s; unfold batch_at; rewrite Hds; reflexivity|].
  split; [exact CNT|]. split; [exact LS|].
  split; [|split; [exact SZ | split; [exact PX | exact PXY]]].
  intros s tb Hs.
  destruct (nth_error (steps el) s) as [sl|] eqn:Esl.
  2:{ apply nth_error_None in Esl.
      assert (s < length (iterate cfg ds e))
        by (apply nth_error_Some; congruence).
      lia. }
  assert (At : step_at log e s = Some sl)
    by (unfold step_at; rewrite He; exact Esl).
  destruct (trainer_step_outcome _ _ _ _ _ _ _ H At)
    as (tb' & w1 & w2 & r1 & BA & _ & SO & _).
  assert (tb' = tb) as ->.
  { unfold batch_at in BA. rewrite Hds in BA. congruence. }
  exists sl. outcome_cases SO; eexists; (split; [reflexivity|]);
    left; reflexivity.
Qed.

(** *** Building the dataset (lines 49-55) *)

Lemma from_tensor_slices_ok :
  (exists train_data,
     from_tensor_slices (X_train cfg) (y_train cfg) = Ok train_data) <->
  match y_train cfg with
  | None => True
  | Some ys => length (X_train cfg) = length ys
  end.
Proof.
  unfold from_tensor_slices. destruct (y_train cfg) as [ys|].
  - destruct (Nat.eqb_spec (length (X_train cfg)) (length ys)).
    + split; eauto.
    + split; [intros (ds & Hds); discriminate | contradiction].
  - split; eauto.
Qed.

Lemma shuffle_batch_check_ok :
  shuffle_batch_check cfg = Ok tt <->
  buffer_ok (buffer_size cfg) = true /\
  (0 < batch_size cfg < int64_limit)%Z.
Proof.
  assert (L : (0 < int64_limit)%Z) by reflexivity.
  unfold shuffle_batch_check.
  destruct (buffer_ok (buffer_size cfg)); cbn [negb].
  2:{ split; [discriminate | intros [? _]; discriminate]. }
  destruct (Z.leb_spec int64_limit (batch_size cfg)),
    (Z.ltb_spec (batch_size cfg) (- int64_limit)),
    (Z.leb_spec (batch_size cfg) 0); cbn [orb];
    (split;
     [intros Q; first [discriminate Q | split; [reflexivity | lia]]
     |intros [_ ?]; first [reflexivity | lia]]).
Qed.

(** What [trainer] is, around its loops: the error of the dataset
    construction, or the epochs. *)
Lemma trainer_setup (w : World) :
  trainer cfg w
  = match from_tensor_slices (X_train cfg) (y_train cfg) with
    | Raise e => (w, [], Raise e)
    | Ok train_data =>
        match shuffle_batch_check cfg with
        | Raise e => (w, [], Raise e)
        | Ok _ =>
            epochs_loop cfg train_data
              (ceil_div (Z.of_nat (length (X_train cfg))) (batch_size cfg))
              (Z.to_nat (epochs cfg)) 0 w
        end
    end.
Proof.
  unfold trainer.
  destruct (from_tensor_slices (X_train cfg) (y_train cfg)); [|reflexivity].
  destruct (shuffle_batch_check cfg) as [[]|e] eqn:EC; [|reflexivity].
  apply shuffle_batch_check_ok in EC. destruct EC as [_ HB].
  unfold n_minibatch_of.
  destruct (Z.eqb_spec (batch_size cfg) 0); [lia | reflexivity].
Qed.

(** C9 (as the code has it): with [epochs = 0] the trainer makes no
    forward pass and no optimizer step, leaves the model, the optimizer
    and the metric as they were and shows nothing.  It returns normally
    exactly when the dataset can be built: the labels, if any, are as
    many as the examples, the framework accepts the buffer size, and the
    batch size is positive and fits a 64-bit integer.  Otherwise the
    error of the dataset construction is what the call raises. *)
Theorem zero_epochs_do_nothing (w w' : World) (log : list EpochLog)
    (r : Result unit) :
  epochs cfg = 0%Z ->
  trainer cfg w = (w', log, r) ->
  w' = w /\ log = [] /\
  (r = Ok tt <->
   match y_train cfg with
   | None => True
   | Some ys => length (X_train cfg) = length ys
   end /\
   buffer_ok (buffer_size cfg) = true /\
   (0 < batch_size cfg < int64_limit)%Z) /\
  (forall e,
     from_tensor_slices (X_train cfg) (y_train cfg) = Raise e ->
     r = Raise e) /\
  (forall train_data e,
     from_tensor_slices (X_train cfg) (y_train cfg) = Ok train_data ->
     shuffle_batch_check cfg = Raise e ->
     r = Raise e).
Proof.
  intros E H. rewrite trainer_setup, E in H. cbn [Z.to_nat epochs_loop] in H.
  pose proof from_tensor_slices_ok as FO.
  pose proof shuffle_batch_check_ok as SO.
  destruct (from_tensor_slices (X_train cfg) (y_train cfg)) as [ds|e0].
  - destruct (shuffle_batch_check cfg) as [[]|e1].
    + inversion H; subst. split; [reflexivity|]. split; [reflexivity|].
      split; [|split].
      * split; [intros _|reflexivity].
        split; [apply FO; eauto | apply SO; reflexivity].
      * intros e Q. discriminate.
      * intros ds' e _ Q. discriminate.
    + inversion H; subst. split; [reflexivity|]. split; [reflexivity|].
      split; [|split].
      * split; [discriminate|]. intros (_ & HB).
        apply SO in HB. discriminate.
      * intros e Q. discriminate.
      * intros ds' e _ Q. congruence.
  - inversion H; subst. split; [reflexivity|]. split; [reflexivity|].
    split; [|split].
    + split; [discriminate|]. intros (HY & _).
      apply FO in HY. destruct HY as (ds & Q). discriminate.
    + intros e Q. congruence.
    + intros ds' e Q. discriminate.
Qed.

End RunFacts.
(** *** [verbose] and the training calls *)

(** Lines 65-93 read the weights and the optimizer state only, and only
    [y_train] and [loss_fn_kwargs] among the arguments. *)
Lemma gradient_step_frame (cfg cfg' : Config) (tb : Batch) (w v : World) :
  y_train cfg = y_train cfg' ->
  loss_fn_kwargs cfg = loss_fn_kwargs cfg' ->
  weights w = weights v ->
  opt_state w = opt_state v ->
  exists w1 v1 cs r,
    gradient_step cfg tb (w, []) = ((w1, cs), r) /\
    gradient_step cfg' tb (v, []) = ((v1, cs), r) /\
    weights w1 = weights v1 /\ opt_state w1 = opt_state v1 /\
    training_calls cs = cs.
Proof.
  intros HY HK HW HO.
  destruct w as [W O M], v as [W' O' M']. cbn in HW, HO. subst W' O'.
  unfold gradient_step, bind, lift. rewrite <- HY, <- HK.
  destruct (unpack (y_train cfg) tb) as [[xb yo]|e].
  2:{ do 4 eexists. repeat split. }
  unfold call_model. cbn [weights app].
  destruct (model_call W xb) as [preds|e].
  2:{ do 4 eexists. repeat split. }
  rewrite !compute_loss_effective. unfold call_loss. cbn [app].
  destruct (loss_fn _ _) as [l0|e].
  2:{ do 4 eexists. repeat split. }
  unfold read_model_losses, call_gradient. cbn [weights app].
  destruct (tape_gradient _ _ _) as [g|e].
  2:{ do 4 eexists. repeat split. }
  unfold call_apply, ret. cbn [weights opt_state app].
  destruct (apply_gradients O g W) as [[o' W']|e];
    do 4 eexists; repeat split.
Qed.

(** Lines 96-104 leave the weights and the optimizer state alone and
    make no training call. *)
Lemma report_outcome_frame (cfg : Config) (w w' : World) (gt : list Row)
    (preds : Preds) (loss : Loss) (cs : StepLog) (r : Result unit) :
  report_outcome cfg w gt preds loss w' cs r ->
  weights w' = weights w /\ opt_state w' = opt_state w /\
  training_calls cs = [].
Proof. intros RO. inversion RO; subst; repeat split. Qed.

Lemma training_calls_app (a b : StepLog) :
  training_calls (a ++ b) = training_calls a ++ training_calls b.
Proof. apply filter_app. Qed.

Lemma run_step_quiet (cfg : Config) (tb : Batch) (w v w1 : World)
    (sl : StepLog) :
  weights w = weights v ->
  opt_state w = opt_state v ->
  run_step (with_verbose true cfg) tb w = (w1, sl, Ok tt) ->
  exists v1,
    run_step (with_verbose false cfg) tb v = (v1, training_calls sl, Ok tt) /\
    weights w1 = weights v1 /\ opt_state w1 = opt_state v1.
Proof.
  intros HW HO H.
  destruct (gradient_step_frame (with_verbose true cfg)
              (with_verbose false cfg) tb w v eq_refl eq_refl HW HO)
    as (wg & vg & cs & rg & G1 & G2 & HW' & HO' & TC).
  unfold run_step, train_step, bind in *. rewrite G1 in H. rewrite G2.
  destruct rg as [[[gt preds] loss]|e]; [|discriminate].
  cbn [verbose with_verbose] in *.
  destruct (report_progress _ gt preds loss (wg, cs)) as [[w2 cs2] r2] eqn:ER.
  inversion H; subst; clear H.
  destruct (report_progress_outcome _ _ _ _ _ _ _ _ _ ER) as (cs' & -> & RO).
  destruct (report_outcome_frame _ _ _ _ _ _ _ _ RO) as (RW & RP & RC).
  exists vg. unfold ret.
  rewrite training_calls_app, TC, RC, app_nil_r.
  repeat split; congruence.
Qed.

Lemma batches_loop_quiet (cfg : Config) (bs : list Batch) :
  forall (w v w1 : World) (sls : list StepLog),
  weights w = weights v ->
  opt_state w = opt_state v ->
  batches_loop (with_verbose true cfg) bs w = (w1, sls, Ok tt) ->
  exists v1,
    batches_loop (with_verbose false cfg) bs v
    = (v1, map training_calls sls, Ok tt) /\
    weights w1 = weights v1 /\ opt_state w1 = opt_state v1.
Proof.
  induction bs as [|tb bs IH]; intros w v w1 sls HW HO H;
    cbn [batches_loop] in *.
  - inversion H; subst. exists v. auto.
  - destruct (run_step (with_verbose true cfg) tb w)
      as [[wa sl] [[]|e]] eqn:E1.
    2:{ inversion H. }
    destruct (batches_loop (with_verbose true cfg) bs wa)
      as [[wb sls'] rb] eqn:E2.
    inversion H; subst; clear H.
    destruct (run_step_quiet _ _ _ _ _ _ HW HO E1) as (va & Q1 & HW1 & HO1).
    destruct (IH _ _ _ _ HW1 HO1 E2) as (vb & Q2 & HW2 & HO2).
    rewrite Q1, Q2. exists vb. auto.
Qed.

Lemma training_calls_idem (sl : StepLog) :
  training_calls (training_calls sl) = training_calls sl.
Proof.
  unfold training_calls. induction sl as [|c sl IH]; cbn; [reflexivity|].
  destruct (is_training_call c) eqn:Ec; cbn; rewrite ?Ec, IH; reflexivity.
Qed.

Lemma epochs_loop_quiet (cfg : Config) (train_data : Slices) (nmb : Z)
    (todo : nat) :
  forall (epoch : nat) (w v w1 : World) (log : list EpochLog),
  weights w = weights v ->
  opt_state w = opt_state v ->
  epochs_loop (with_verbose true cfg) train_data nmb todo epoch w
  = (w1, log, Ok tt) ->
  exists v1 log',
    epochs_loop (with_verbose false cfg) train_data nmb todo epoch v
    = (v1, log', Ok tt) /\
    weights w1 = weights v1 /\ opt_state w1 = opt_state v1 /\
    training_log log' = training_log log /\
    forall el, In el log' ->
      progbar el = None /\
      forall sl, In sl (steps el) -> training_calls sl = sl.
Proof.
  induction todo as [|todo IH]; intros epoch w v w1 log HW HO H;
    cbn [epochs_loop] in *.
  - inversion H; subst. exists v, []. repeat split; auto; contradiction.
  - unfold run_epoch in *.
    change (iterate (with_verbose true cfg) train_data epoch)
      with (iterate (with_verbose false cfg) train_data epoch) in H.
    destruct (batches_loop (with_verbose true cfg)
                (iterate (with_verbose false cfg) train_data epoch) w)
      as [[wa sls] [[]|e]] eqn:E1.
    2:{ inversion H. }
    destruct (epochs_loop (with_verbose true cfg) train_data nmb todo
                (S epoch) wa) as [[wb els] rb] eqn:E2.
    inversion H; subst; clear H.
    destruct (batches_loop_quiet _ _ _ _ _ _ HW HO E1)
      as (va & Q1 & HW1 & HO1).
    destruct (IH _ _ _ _ _ HW1 HO1 E2) as (vb & log' & Q2 & HW2 & HO2 & TL & PB).
    rewrite Q1, Q2. eexists vb, _. split; [reflexivity|].
    split; [exact HW2|]. split; [exact HO2|]. split.
    + cbn [training_log map steps]. unfold training_log in TL. rewrite TL.
      f_equal. rewrite map_map.
      apply map_ext. intros sl. apply training_calls_idem.
    + intros el [<-|Hel]; [|apply PB; exact Hel].
      cbn [progbar steps verbose with_verbose]. split; [reflexivity|].
      intros sl Hsl. apply in_map_iff in Hsl. destruct Hsl as (sl0 & <- & _).
      apply training_calls_idem.
Qed.

(** C8: when the call with [verbose = True] returns, the call with
    [verbose = False] on the same arguments returns too, after the same
    forward passes, loss calls, gradient calls and optimizer steps, batch
    by batch and epoch by epoch, and leaves the same weights and the same
    optimizer state; it creates no progress bar and makes no other call. *)
Theorem verbose_does_not_change_training (cfg : Config) (w w1 : World)
    (log1 : list EpochLog) :
  trainer (with_verbose true cfg) w = (w1, log1, Ok tt) ->
  exists w2 log2,
    trainer (with_verbose false cfg) w = (w2, log2, Ok tt) /\
    weights w2 = weights w1 /\
    opt_state w2 = opt_state w1 /\
    training_log log2 = training_log log1 /\
    forall el, In el log2 ->
      progbar el = None /\
      forall sl, In sl (steps el) -> training_calls sl = sl.
Proof.
  intros H.
  unfold trainer, shuffle_batch_check, n_minibatch_of in *.
  cbn [X_train y_train batch_size buffer_size epochs with_verbose] in *.
  destruct (from_tensor_slices (X_train cfg) (y_train cfg)) as [ds|e];
    [|discriminate].
  destruct (negb (buffer_ok (buffer_size cfg))); [discriminate|].
  destruct ((int64_limit <=? batch_size cfg)%Z
            || (batch_size cfg <? - int64_limit)%Z); [discriminate|].
  destruct (batch_size cfg <=? 0)%Z; [discriminate|].
  destruct (batch_size cfg =? 0)%Z; [discriminate|].
  destruct (epochs_loop_quiet _ _ _ _ _ _ w _ _ eq_refl eq_refl H)
    as (v1 & log' & Q & HW & HO & TL & PB).
  exists v1, log'. repeat split; auto; apply PB; assumption.
Qed.

End TrainerFacts.

(** * More properties of the loop *)

Section TrainerMore.
Context {T : Types} {F : Framework T}.

Local Abbreviation exn := (exn Err).
Local Abbreviation Result := (Result Err).
Local Abbreviation ndarray := (ndarray Scalar).
Local Abbreviation Preds := (Preds Tensor).
Local Abbreviation Arg := (Arg Row Tensor).
Local Abbreviation Slices := (Slices Row).
Local Abbreviation Batch := (Batch Row).

(** ** The loop body on any batch *)

Lemma run_step_cases (cfg : Config) (tb : Batch) (w w' : World)
    (sl : StepLog) (r : Result unit) :
  run_step cfg tb w = (w', sl, r) ->
  (w' = w /\ sl = [] /\ exists e, r = Raise e) \/
  exists xb gt, step_outcome cfg w tb xb gt w' sl r.
Proof.
  intros H.
  destruct (unpack (y_train cfg) tb) as [[xb yo]|e] eqn:HU.
  - right. exists xb, (select_ground_truth (y_train cfg) xb yo).
    eapply run_step_outcome; eassumption.
  - left. unfold run_step, train_step, bind, gradient_step, bind, lift in H.
    rewrite HU in H. inversion H; subst. eauto.
Qed.

(** What one pass reads and what it leaves: the forward pass and the
    optimizer step read the state before the batch, and an applied
    optimizer step is the state after it. *)
Lemma run_step_state (cfg : Config) (tb : Batch) (w w' : World)
    (sl : StepLog) (r : Result unit) :
  run_step cfg tb w = (w', sl, r) ->
  (forall xb rp, In (CForward xb rp) sl -> rp = model_call (weights w) xb) /\
  (forall g ra, In (CApply g ra) sl ->
     ra = apply_gradients (opt_state w) g (weights w)) /\
  (forall g o' W', In (CApply g (Ok (o', W'))) sl ->
     weights w' = W' /\ opt_state w' = o').
Proof.
  intros H.
  destruct (run_step_cases _ _ _ _ _ _ H) as [(-> & -> & _)|(xb & gt & SO)].
  { repeat split; intros; contradiction. }
  split; [|split].
  - intros xb' rp Hin. outcome_cases SO; in_cases; congruence.
  - intros g' ra Hin. outcome_cases SO; in_cases; congruence.
  - intros g' o' W' Hin.
    outcome_cases SO; in_cases; cbn [weights opt_state];
      split; congruence.
Qed.

(** ** The run as a chain of passes *)

Lemma chain_app (cfg : Config) (w w1 : World) (a : list StepLog) :
  chain cfg w a w1 ->
  forall b w2, chain cfg w1 b w2 -> chain cfg w (a ++ b) w2.
Proof.
  induction 1 as [w|w tb w1 sl r sls w2 Hrun Hch IH]; intros b w3 Hb.
  - exact Hb.
  - cbn [app]. eapply chain_cons; [exact Hrun | apply IH; exact Hb].
Qed.

Lemma batches_loop_chain (cfg : Config) (bs : list Batch) :
  forall w w' sls r,
  batches_loop cfg bs w = (w', sls, r) -> chain cfg w sls w'.
Proof.
  induction bs as [|tb bs IH]; intros w w' sls r H; cbn [batches_loop] in H.
  - inversion H; subst. constructor.
  - destruct (run_step cfg tb w) as [[w1 sl1] [[]|e1]] eqn:E1.
    + destruct (batches_loop cfg bs w1) as [[w2 sls2] r2] eqn:E2.
      inversion H; subst; clear H.
      eapply chain_cons; [exact E1 | eapply IH; exact E2].
    + inversion H; subst; clear H.
      eapply chain_cons; [exact E1 | constructor].
Qed.

Lemma epochs_loop_chain (cfg : Config) (train_data : Slices) (nmb : Z)
    (todo : nat) :
  forall epoch w w' els r,
  epochs_loop cfg train_data nmb todo epoch w = (w', els, r) ->
  chain cfg w (all_steps els) w'.
Proof.
  induction todo as [|todo IH]; intros epoch w w' els r H;
    cbn [epochs_loop] in H.
  - inversion H; subst. constructor.
  - unfold run_epoch in H.
    destruct (batches_loop cfg (iterate cfg train_data epoch) w)
      as [[w1 sls1] [[]|e1]] eqn:E1.
    + destruct (epochs_loop cfg train_data nmb todo (S epoch) w1)
        as [[w2 els2] r2] eqn:E2.
      inversion H; subst; clear H.
      unfold all_steps. cbn [map concat steps].
      eapply chain_app; [eapply batches_loop_chain; exact E1|].
      eapply IH; exact E2.
    + inversion H; subst; clear H.
      unfold all_steps. cbn [map concat steps]. rewrite app_nil_r.
      eapply batches_loop_chain; exact E1.
Qed.

Lemma trainer_chain (cfg : Config) (w w' : World) (log : list EpochLog)
    (r : Result unit) :
  trainer cfg w = (w', log, r) -> chain cfg w (all_steps log) w'.
Proof.
  intros H.
  destruct (trainer_inv _ _ _ _ _ H) as [(-> & -> & _)|(ds & _ & _ & _ & HL)].
  - constructor.
  - eapply epochs_loop_chain; exact HL.
Qed.

Lemma chain_consecutive (cfg : Config) (w w' : World) (sls : list StepLog) :
  chain cfg w sls w' ->
  forall i sl sl', nth_error sls i = Some sl ->
                   nth_error sls (S i) = Some sl' ->
  exists tb tb' wa wb wc r r',
    run_step cfg tb wa = (wb, sl, r) /\
    run_step cfg tb' wb = (wc, sl', r').
Proof.
  induction 1 as [w|w tb w1 sl0 r0 sls w2 Hrun Hch IH];
    intros i sl sl' Hi Hi'.
  - destruct i; discriminate.
  - destruct i as [|i].
    + cbn in Hi, Hi'. inversion Hi; subst; clear Hi.
      inversion Hch as [|? tb' w3 sl1 r1 sls' ? Hrun' Hch']; subst;
        [discriminate|].
      cbn in Hi'. inversion Hi'; subst. do 7 eexists. eauto.
    + cbn in Hi. eapply IH; [exact Hi | exact Hi'].
Qed.

Lemma chain_last (cfg : Config) (w w' : World) (sls : list StepLog) :
  chain cfg w sls w' ->
  forall pre sl, sls = pre ++ [sl] ->
  exists tb wa r, run_step cfg tb wa = (w', sl, r).
Proof.
  induction 1 as [w|w tb w1 sl0 r0 sls w2 Hrun Hch IH]; intros pre sl E.
  - destruct pre; discriminate.
  - destruct pre as [|p pre]; cbn [app] in E; inversion E; subst; clear E.
    + inversion Hch; subst. eauto.
    + eapply IH. reflexivity.
Qed.

Lemma chain_first (cfg : Config) (w w' : World) (sl : StepLog)
    (sls : list StepLog) :
  chain cfg w (sl :: sls) w' ->
  exists tb wb r, run_step cfg tb w = (wb, sl, r).
Proof. intros H. inversion H; subst. eauto. Qed.

(** ** State threading (lines 63-93) *)

(** X1: the first batch of a run is passed through the model as the caller
    handed it over, and every later batch, in the same epoch or the next,
    through the model and the optimizer as the optimizer step of the batch
    before left them. *)
Theorem each_batch_starts_from_the_previous_update (cfg : Config)
    (w w' : World) (log : list EpochLog) (r : Result unit) :
  trainer cfg w = (w', log, r) ->
  (forall sl xb rp, nth_error (all_steps log) 0 = Some sl ->
     In (CForward xb rp) sl -> rp = model_call (weights w) xb) /\
  (forall i sl sl' g o' W',
     nth_error (all_steps log) i = Some sl ->
     nth_error (all_steps log) (S i) = Some sl' ->
     In (CApply g (Ok (o', W'))) sl ->
     (forall xb rp, In (CForward xb rp) sl' -> rp = model_call W' xb) /\
     (forall g' ra, In (CApply g' ra) sl' ->
        ra = apply_gradients o' g' W')).
Proof.
  intros H. pose proof (trainer_chain _ _ _ _ _ H) as CH. split.
  - intros sl xb rp H0 Hin.
    destruct (all_steps log) as [|sl0 sls]; [discriminate|].
    cbn in H0. inversion H0; subst.
    destruct (chain_first _ _ _ _ _ CH) as (tb & wb & r0 & Hrun).
    destruct (run_step_state _ _ _ _ _ _ Hrun) as (HF & _ & _).
    eapply HF; exact Hin.
  - intros i sl sl' g o' W' Hi Hi' HA.
    destruct (chain_consecutive _ _ _ _ CH _ _ _ Hi Hi')
      as (tb & tb' & wa & wb & wc & r1 & r2 & R1 & R2).
    destruct (run_step_state _ _ _ _ _ _ R1) as (_ & _ & HW).
    destruct (HW _ _ _ HA) as [EW EO].
    destruct (run_step_state _ _ _ _ _ _ R2) as (HF & HP & _).
    rewrite EW, EO in *. split; assumption.
Qed.

Lemma trainer_final_state (cfg : Config) (w w' : World)
    (log : list EpochLog) (r : Result unit) :
  trainer cfg w = (w', log, r) ->
  (all_steps log = [] -> w' = w) /\
  (forall pre sl g o' W',
     all_steps log = pre ++ [sl] ->
     In (CApply g (Ok (o', W'))) sl ->
     weights w' = W' /\ opt_state w' = o').
Proof.
  intros H. pose proof (trainer_chain _ _ _ _ _ H) as CH. split.
  - intros E. rewrite E in CH. inversion CH. reflexivity.
  - intros pre sl g o' W' E HA.
    destruct (chain_last _ _ _ _ CH _ _ E) as (tb & wa & r0 & Hrun).
    destruct (run_step_state _ _ _ _ _ _ Hrun) as (_ & _ & HW).
    eapply HW; exact HA.
Qed.

(** X2: what the caller is left with: the world as it was when no batch was
    processed, and otherwise the weights and the optimizer state that the
    optimizer step of the last batch returned. *)
Theorem final_state_is_the_last_update (cfg : Config) (w w' : World)
    (log : list EpochLog) (r : Result unit) :
  trainer cfg w = (w', log, r) ->
  (all_steps log = [] -> w' = w) /\
  (forall pre sl g o' W',
     all_steps log = pre ++ [sl] ->
     In (CApply g (Ok (o', W'))) sl ->
     weights w' = W' /\ opt_state w' = o').
Proof. apply trainer_final_state. Qed.

Lemma last_of_list {A : Type} (l : list A) (i : nat) (x : A) :
  nth_error l i = Some x -> S i = length l -> exists pre, l = pre ++ [x].
Proof.
  intros Hn HL. destruct (nth_error_split _ _ Hn) as (l1 & l2 & -> & L1).
  rewrite length_app in HL. cbn [length] in HL.
  destruct l2; [|cbn [length] in HL; lia]. eauto.
Qed.

Lemma last_step_all_steps (log : list EpochLog) (e s : nat) (sl : StepLog) :
  last_step log e s -> step_at log e s = Some sl ->
  exists pre, all_steps log = pre ++ [sl].
Proof.
  intros (Le & el & Hel & Ls) At. unfold step_at in At. rewrite Hel in At.
  destruct (last_of_list _ _ _ Hel Le) as (lpre & ->).
  destruct (last_of_list _ _ _ At Ls) as (spre & Es).
  exists (all_steps lpre ++ spre). unfold all_steps.
  rewrite map_app, concat_app. cbn [map concat]. rewrite Es, app_nil_r.
  apply app_assoc.
Qed.

(** ** Order of the calls of one batch *)

(** X3: every batch starts with the forward pass, and its calls come in the
    order forward pass, loss, gradients, optimizer step, metric, progress
    bar, each at most once: nothing is shown or measured before the
    optimizer step. *)
Theorem calls_of_a_batch_are_in_order (cfg : Config) (w w' : World)
    (log : list EpochLog) (r : Result unit) (e s : nat) (sl : StepLog) :
  trainer cfg w = (w', log, r) ->
  step_at log e s = Some sl ->
  (exists xb rp rest, sl = CForward xb rp :: rest) /\
  StronglySorted lt (map stage sl).
Proof.
  intros H At.
  destruct (trainer_step_outcome _ _ _ _ _ _ _ _ H At)
    as (tb & w1 & w2 & r1 & _ & _ & SO & _).
  split.
  - outcome_cases SO; do 3 eexists; reflexivity.
  - outcome_cases SO; cbn [map stage];
      repeat (constructor; try lia).
Qed.

(** ** Before the loop (lines 49-58) *)

(** X4: when the dataset cannot be built (labels that are not as many as
    the examples, a buffer size the framework refuses, a batch size that
    is not positive or does not fit a 64-bit integer) the call raises
    before anything is called, whatever the number of epochs, and the
    caller's objects are as they were. *)
Theorem dataset_errors_precede_training (cfg : Config) (w : World) :
  (exists ys, y_train cfg = Some ys /\ length (X_train cfg) <> length ys) \/
  buffer_ok (buffer_size cfg) = false \/
  (batch_size cfg <= 0)%Z \/
  (int64_limit <= batch_size cfg)%Z ->
  exists e, trainer cfg w = (w, [], Raise e).
Proof.
  intros H. rewrite trainer_setup.
  destruct (from_tensor_slices (X_train cfg) (y_train cfg)) as [ds|e0] eqn:EF;
    [|eauto].
  destruct (shuffle_batch_check cfg) as [[]|e1] eqn:EC; [|eauto].
  exfalso. apply shuffle_batch_check_ok in EC. destruct EC as [EB HB].
  assert (FO : exists train_data,
             from_tensor_slices (X_train cfg) (y_train cfg) = Ok train_data)
    by eauto.
  apply from_tensor_slices_ok in FO.
  destruct H as [(ys & EY & NL)|[H|[H|H]]];
    [rewrite EY in FO; contradiction | congruence | lia | lia].
Qed.

(** X5: a number of epochs that is zero or negative gives an empty
    [range(epochs)]: nothing is called and nothing changes. *)
Theorem nonpositive_epochs_train_nothing (cfg : Config) (w w' : World)
    (log : list EpochLog) (r : Result unit) :
  (epochs cfg <= 0)%Z ->
  trainer cfg w = (w', log, r) ->
  w' = w /\ log = [].
Proof.
  intros E H.
  destruct (trainer_inv _ _ _ _ _ H) as [(-> & -> & _)|(ds & _ & _ & _ & HL)];
    [auto|].
  replace (Z.to_nat (epochs cfg)) with 0 in HL by lia.
  cbn in HL. inversion HL; subst. auto.
Qed.

Lemma gather_nil {A : Type} (order : list nat) :
  Dataset.gather (@nil A) order = [].
Proof.
  unfold Dataset.gather. induction order as [|i order IH]; cbn;
    [reflexivity|].
  destruct i; cbn; exact IH.
Qed.

(** X6: an empty training set, with a batch size that is positive and
    fits a 64-bit integer: every epoch runs over no batch, the call
    returns, the caller's objects are as they were, and a progress bar
    created for an epoch has target 0. *)
Theorem empty_training_set_trains_nothing (cfg : Config) (w : World) :
  X_train cfg = [] ->
  y_train cfg = None \/ y_train cfg = Some [] ->
  buffer_ok (buffer_size cfg) = true ->
  (0 < batch_size cfg < int64_limit)%Z ->
  trainer cfg w
  = (w,
     repeat (mk_EpochLog (if verbose cfg then Some (0%Z, 1%Z) else None) [])
            (Z.to_nat (epochs cfg)),
     Ok tt).
Proof.
  intros EX EY EB HB. rewrite trainer_setup.
  assert (SC : shuffle_batch_check cfg = Ok tt)
    by (apply shuffle_batch_check_ok; auto).
  rewrite SC, EX. cbn [length].
  assert (C0 : ceil_div (Z.of_nat 0) (batch_size cfg) = 0%Z)
    by (symmetry; apply ceil_div_unique; cbn [Z.of_nat]; lia).
  rewrite C0.
  assert (L : forall ds todo epoch,
             ds = SlicesX [] \/ ds = SlicesXY [] ->
             epochs_loop cfg ds 0 todo epoch w
             = (w, repeat (mk_EpochLog
                             (if verbose cfg then Some (0%Z, 1%Z) else None)
                             []) todo, Ok tt)).
  { intros ds todo. induction todo as [|todo IH]; intros epoch Hds;
      cbn [epochs_loop repeat]; [reflexivity|].
    unfold run_epoch.
    assert (I0 : iterate cfg ds epoch = []).
    { unfold iterate, shuffled.
      destruct Hds as [-> | ->]; rewrite gather_nil; reflexivity. }
    rewrite I0. cbn [batches_loop]. rewrite (IH (S epoch) Hds). reflexivity. }
  unfold from_tensor_slices.
  destruct EY as [-> | ->]; cbn [length Nat.eqb combine]; apply L; auto.
Qed.

(** ** A call that is not verbose (lines 59-60 and 95-104) *)

Lemma chain_preserves (cfg : Config) (P : World -> Prop) :
  (forall tb wa wb sl r, run_step cfg tb wa = (wb, sl, r) -> P wa -> P wb) ->
  forall w sls w', chain cfg w sls w' -> P w -> P w'.
Proof.
  intros Hstep. induction 1 as [w|w tb w1 sl r sls w2 Hrun Hch IH];
    intros HP; [exact HP|].
  apply IH. eapply Hstep; eassumption.
Qed.

(** X7: with [verbose = False] no progress bar is created, every call that
    is made is one of forward pass, loss, gradients and optimizer step,
    and the metric object, supplied or not, is left as it was; this holds
    for the runs that raise too. *)
Theorem quiet_run_touches_no_metric_and_shows_nothing (cfg : Config)
    (w w' : World) (log : list EpochLog) (r : Result unit) :
  verbose cfg = false ->
  trainer cfg w = (w', log, r) ->
  metric_state w' = metric_state w /\
  forall el, In el log ->
    progbar el = None /\
    forall sl c, In sl (steps el) -> In c sl -> is_training_call c = true.
Proof.
  intros V H. split.
  - apply (chain_preserves cfg
             (fun wx => metric_state wx = metric_state w))
      with (w := w) (sls := all_steps log);
      [|eapply trainer_chain; exact H | reflexivity].
    intros tb wa wb sl r0 Hrun HP. rewrite <- HP.
    destruct (run_step_cases _ _ _ _ _ _ Hrun)
      as [(-> & _ & _)|(xb & gt & SO)]; [reflexivity|].
    outcome_cases SO; try congruence; reflexivity.
  - intros el Hel.
    destruct (In_nth_error _ _ Hel) as (e & He).
    split.
    + destruct (trainer_inv _ _ _ _ _ H)
        as [(_ & -> & _)|(ds & _ & _ & _ & HL)]; [destruct e; discriminate|].
      destruct (epochs_loop_inv _ _ _ _ _ _ _ _ _ HL) as (_ & HE).
      destruct (HE _ _ He) as (PB & _). rewrite PB, V. reflexivity.
    + intros sl c Hsl Hc.
      destruct (In_nth_error _ _ Hsl) as (s0 & Hs).
      assert (At : step_at log e s0 = Some sl)
        by (unfold step_at; rewrite He; exact Hs).
      destruct (trainer_step_outcome _ _ _ _ _ _ _ _ H At)
        as (tb & w1 & w2 & r1 & _ & _ & SO & _).
      outcome_cases SO; try congruence; in_cases; reflexivity.
Qed.

(** ** A run that returns: epochs, batches, progress bars *)

Lemma returning_run_shape (cfg : Config) (w w' : World)
    (log : list EpochLog) :
  shuffle_is_permutation F ->
  trainer cfg w = (w', log, Ok tt) ->
  let n := ceil_div (Z.of_nat (length (X_train cfg))) (batch_size cfg) in
  length log = Z.to_nat (epochs cfg) /\
  (0 <= n)%Z /\
  forall el, In el log ->
    Z.of_nat (length (steps el)) = n /\
    progbar el = (if verbose cfg then Some (n, 1%Z) else None) /\
    forall sl, In sl (steps el) ->
      exists tb w1 w2 xb gt, step_outcome cfg w1 tb xb gt w2 sl (Ok tt).
Proof.
  intros P H. cbv zeta.
  destruct (trainer_inv _ _ _ _ _ H)
    as [(_ & _ & e0 & E0)|(ds & Hds & _ & HB & HL)]; [discriminate|].
  destruct (epochs_loop_inv _ _ _ _ _ _ _ _ _ HL) as (LE & HE).
  split; [apply LE; reflexivity|].
  split.
  { pose proof (ceil_div_bounds (Z.of_nat (length (X_train cfg)))
                  (batch_size cfg) HB). nia. }
  intros el Hel. destruct (In_nth_error _ _ Hel) as (e & He).
  destruct (HE _ _ He) as (PB & wa & wb & rb & HBL & DB).
  assert (rb = Ok tt) as -> by (destruct DB as [|[? _]]; assumption).
  destruct (batches_loop_inv _ _ _ _ _ _ HBL) as (LS & _ & _).
  destruct (iterate_covers cfg ds (0 + e) P Hds HB) as (CNT & _).
  split; [rewrite LS by reflexivity; exact CNT|].
  split; [exact PB|].
  intros sl Hsl. destruct (In_nth_error _ _ Hsl) as (s0 & Hs).
  assert (At : step_at log e s0 = Some sl)
    by (unfold step_at; rewrite He; exact Hs).
  destruct (trainer_step_outcome _ _ _ _ _ _ _ _ H At)
    as (tb & w1 & w2 & r1 & _ & _ & SO & D).
  assert (r1 = Ok tt) as -> by (destruct D as [|[? _]]; assumption).
  eauto 6.
Qed.

Lemma advance_of_full_epoch (sls : list StepLog) :
  (forall sl, In sl sls -> pbar_advance sl = 1%Z) ->
  fold_right (fun sl acc => (pbar_advance sl + acc)%Z) 0%Z sls
  = Z.of_nat (length sls).
Proof.
  induction sls as [|sl sls IH]; intros Hall; [reflexivity|].
  cbn [fold_right length]. rewrite IH by (intros; apply Hall; right; assumption).
  rewrite (Hall sl) by (left; reflexivity). lia.
Qed.

(** X8: in a verbose run that returns, the progress bar of every epoch is
    created with target [ceil(N / batch_size)] (and width 1, the second
    positional argument) and has been advanced by exactly its target when
    the epoch ends. *)
Theorem progress_bar_reaches_its_target (cfg : Config) (w w' : World)
    (log : list EpochLog) :
  shuffle_is_permutation F ->
  verbose cfg = true ->
  trainer cfg w = (w', log, Ok tt) ->
  forall el, In el log ->
    let target :=
      ceil_div (Z.of_nat (length (X_train cfg))) (batch_size cfg) in
    progbar el = Some (target, 1%Z) /\ epoch_advance el = target.
Proof.
  intros P V H el Hel. cbv zeta.
  destruct (returning_run_shape _ _ _ _ P H) as (_ & _ & HE).
  destruct (HE _ Hel) as (LS & PB & ST).
  rewrite V in PB. split; [exact PB|].
  unfold epoch_advance. rewrite advance_of_full_epoch; [exact LS|].
  intros sl Hsl. destruct (ST _ Hsl) as (tb & w1 & w2 & xb & gt & SO).
  outcome_cases SO; try congruence; reflexivity.
Qed.

Lemma length_all_steps (log : list EpochLog) (k : nat) :
  (forall el, In el log -> length (steps el) = k) ->
  length (all_steps log) = length log * k.
Proof.
  unfold all_steps. induction log as [|el log IH]; intros Hall;
    [reflexivity|].
  cbn [map concat length]. rewrite length_app, IH, (Hall el).
  - lia.
  - left; reflexivity.
  - intros el' Hel'. apply Hall. right; exact Hel'.
Qed.

Lemma list_sum_ones {A : Type} (f : A -> nat) (l : list A) :
  (forall x, In x l -> f x = 1) -> list_sum (map f l) = length l.
Proof.
  induction l as [|x l IH]; intros Hall; [reflexivity|].
  cbn [map length].
  change (list_sum (f x :: map f l)) with (f x + list_sum (map f l)).
  rewrite IH, (Hall x).
  - reflexivity.
  - left; reflexivity.
  - intros y Hy. apply Hall. right; exact Hy.
Qed.

(** X9: a run that returns has applied exactly one optimizer step per batch:
    [epochs * ceil(N / batch_size)] in all. *)
Theorem optimizer_steps_of_a_returning_run (cfg : Config) (w w' : World)
    (log : list EpochLog) :
  shuffle_is_permutation F ->
  trainer cfg w = (w', log, Ok tt) ->
  optimizer_steps log
  = Z.to_nat (epochs cfg)
    * Z.to_nat (ceil_div (Z.of_nat (length (X_train cfg))) (batch_size cfg)).
Proof.
  intros P H.
  destruct (returning_run_shape _ _ _ _ P H) as (LE & N0 & HE).
  unfold optimizer_steps. rewrite list_sum_ones.
  - rewrite <- LE. apply length_all_steps.
    intros el Hel. destruct (HE _ Hel) as (LS & _). lia.
  - intros sl Hsl. unfold all_steps in Hsl.
    apply in_concat in Hsl. destruct Hsl as (sls & Hsls & Hsl).
    apply in_map_iff in Hsls. destruct Hsls as (el & <- & Hel).
    destruct (HE _ Hel) as (_ & _ & ST).
    destruct (ST _ Hsl) as (tb & w1 & w2 & xb & gt & SO).
    outcome_cases SO; reflexivity.
Qed.

(** ** What the progress bar is given as loss (lines 96-100) *)

Lemma display_loss_shape (B : Z) (lv lv' : ndarray) :
  display_loss B lv = Ok lv' ->
  shape lv' = [] \/ map Z.of_nat (shape lv') = [B].
Proof.
  unfold display_loss. destruct (shape_is lv B) eqn:ES; cbn [negb andb].
  - intros E. inversion E; subst. right. apply shape_is_spec. exact ES.
  - unfold shape_nonempty, pad_with_mean, np_ones_times, shape0, np_r_.
    destruct (shape lv) as [|n sh] eqn:Sh.
    + intros E. inversion E; subst. left. exact Sh.
    + destruct (Z.ltb_spec (B - Z.of_nat n) 0); [discriminate|].
      destruct (too_big <=? B - Z.of_nat n)%Z; [discriminate|].
      cbn [shape data]. destruct sh; [|discriminate].
      intros E. inversion E; subst. right. cbn [shape map]. f_equal. lia.
Qed.

Lemma display_loss_raises (B : Z) (lv : ndarray) :
  (2 <= length (shape lv)) \/
  (exists k, shape lv = [k] /\ (B < Z.of_nat k)%Z) ->
  display_loss B lv = Raise ValueError.
Proof.
  intros H. unfold display_loss, shape_is, shape_nonempty, pad_with_mean,
    np_ones_times, shape0, np_r_.
  destruct H as [H|(k & E & Hk)].
  - destruct (shape lv) as [|n [|m sh]]; cbn [length] in H; try lia.
    cbn [negb andb].
    destruct (Z.ltb_spec (B - Z.of_nat n) 0); [reflexivity|].
    destruct (too_big <=? B - Z.of_nat n)%Z; reflexivity.
  - rewrite E. destruct (Z.eqb_spec (Z.of_nat k) B); [lia|].
    cbn [negb andb]. destruct (Z.ltb_spec (B - Z.of_nat k) 0); [|lia].
    reflexivity.
Qed.

(** X10: whatever the loss function returns, the loss handed to the progress
    bar is first in the list of values, under the name ["loss"], and is
    either a 0-dimensional scalar or of shape [(batch_size,)]. *)
Theorem displayed_loss_has_consistent_shape (cfg : Config) (w w' : World)
    (log : list EpochLog) (r : Result unit) (e s : nat) (sl : StepLog)
    (n : Z) (vals : list (string * ndarray)) :
  trainer cfg w = (w', log, r) ->
  step_at log e s = Some sl ->
  In (CPbarAdd n vals) sl ->
  exists lv rest,
    vals = ("loss"%string, lv) :: rest /\
    (shape lv = [] \/ map Z.of_nat (shape lv) = [batch_size cfg]).
Proof.
  intros H At Hin.
  destruct (trainer_step_outcome _ _ _ _ _ _ _ _ H At)
    as (tb & w1 & w2 & r1 & _ & _ & SO & _).
  outcome_cases SO; in_cases; try congruence;
    do 2 eexists; (split; [reflexivity|]);
    eapply display_loss_shape; eassumption.
Qed.

(** X11: in a verbose run, a loss with two or more dimensions, or with one
    dimension longer than [batch_size], makes the padding raise
    [ValueError]: the run ends there, after the optimizer step of that
    batch was applied (the caller is left with the updated weights), and
    for that batch the metric is not updated and nothing is shown. *)
Theorem unpaddable_loss_raises_after_the_update (cfg : Config)
    (w w' : World) (log : list EpochLog) (r : Result unit) (e s : nat)
    (sl : StepLog) (loss : Loss) (g : Grad) (o' : OptState) (W' : Weights) :
  verbose cfg = true ->
  trainer cfg w = (w', log, r) ->
  step_at log e s = Some sl ->
  In (CGradient loss (Ok g)) sl ->
  In (CApply g (Ok (o', W'))) sl ->
  (2 <= length (shape (numpy loss)) \/
   exists k, shape (numpy loss) = [k] /\ (batch_size cfg < Z.of_nat k)%Z) ->
  r = Raise ValueError /\
  last_step log e s /\
  (forall c, In c sl -> is_training_call c = true) /\
  weights w' = W' /\ opt_state w' = o'.
Proof.
  intros V H At HG HA Sh.
  pose proof (display_loss_raises (batch_size cfg) _ Sh) as HD.
  destruct (trainer_step_outcome _ _ _ _ _ _ _ _ H At)
    as (tb & w1 & w2 & r1 & _ & _ & SO & D).
  assert (R : r1 = Raise ValueError /\
              forall c, In c sl -> is_training_call c = true).
  { outcome_cases SO; in_cases; try congruence;
      (split; [congruence | intros c Hc; in_cases; reflexivity]). }
  destruct R as [-> TC].
  destruct D as [D|[<- L]]; [discriminate|].
  split; [reflexivity|]. split; [exact L|]. split; [exact TC|].
  destruct (last_step_all_steps _ _ _ _ L At) as (pre & E).
  destruct (trainer_final_state _ _ _ _ _ H) as (_ & FS).
  eapply FS; eassumption.
Qed.

(** ** The metric and failures across batches *)

Lemma run_step_metric (cfg : Config) (tb : Batch) (w w' : World)
    (sl : StepLog) (r : Result unit) :
  run_step cfg tb w = (w', sl, r) ->
  (forall gt p rm, In (CMetric gt p rm) sl ->
     rm = metric_update (metric_state w) gt p) /\
  (forall gt p m', In (CMetric gt p (Ok m')) sl -> metric_state w' = m') /\
  (forall c err, In c sl -> call_error c = Some err -> stage c <= 2 ->
     w' = w).
Proof.
  intros H.
  destruct (run_step_cases _ _ _ _ _ _ H) as [(-> & -> & _)|(xb & gt & SO)].
  { repeat split; intros; contradiction. }
  split; [|split].
  - intros gt' p rm Hin.
    outcome_cases SO; in_cases; cbn [metric_state] in *; congruence.
  - intros gt' p m0 Hin. outcome_cases SO; in_cases; try congruence;
      cbn [metric_state]; congruence.
  - intros c err Hin HE HS.
    outcome_cases SO; in_cases; cbn in HE, HS; try discriminate; try lia;
      reflexivity.
Qed.

(** X12: the metric object is never reset: the update of a batch starts from
    the state the update of the batch before left, in the same epoch or
    the one before. *)
Theorem metric_accumulates_across_batches (cfg : Config) (w w' : World)
    (log : list EpochLog) (r : Result unit) (i : nat) (sl sl' : StepLog)
    (gt gt' : list Row) (p p' : Preds) (m : MetricState)
    (rm : Result MetricState) :
  trainer cfg w = (w', log, r) ->
  nth_error (all_steps log) i = Some sl ->
  nth_error (all_steps log) (S i) = Some sl' ->
  In (CMetric gt p (Ok m)) sl ->
  In (CMetric gt' p' rm) sl' ->
  rm = metric_update m gt' p'.
Proof.
  intros H Hi Hi' HM HM'.
  pose proof (trainer_chain _ _ _ _ _ H) as CH.
  destruct (chain_consecutive _ _ _ _ CH _ _ _ Hi Hi')
    as (tb & tb' & wa & wb & wc & r1 & r2 & R1 & R2).
  destruct (run_step_metric _ _ _ _ _ _ R1) as (_ & HS & _).
  destruct (run_step_metric _ _ _ _ _ _ R2) as (HU & _ & _).
  rewrite <- (HS _ _ _ HM). eapply HU; exact HM'.
Qed.

Lemma chain_last_two (cfg : Config) (w w' : World) (sls : list StepLog) :
  chain cfg w sls w' ->
  forall pre sl sl', sls = pre ++ [sl; sl'] ->
  exists tb tb' wa wb r r',
    run_step cfg tb wa = (wb, sl, r) /\ run_step cfg tb' wb = (w', sl', r').
Proof.
  induction 1 as [w|w tb w1 sl0 r0 sls w2 Hrun Hch IH]; intros pre sl sl' E.
  - destruct pre; discriminate.
  - destruct pre as [|q pre]; cbn [app] in E; inversion E; subst; clear E.
    + inversion Hch as [|? tb' w3 sl1 r1 sls' ? Hrun' Hch']; subst.
      inversion Hch'; subst. do 6 eexists. eauto.
    + eapply IH; reflexivity.
Qed.

(** X13: no rollback: when the forward pass, the loss function or the
    gradient computation of a batch raises, the caller is left with the
    weights and the optimizer state that the optimizer step of the batch
    before returned; when it is the first batch, with the world as it
    was. *)
Theorem failure_keeps_the_earlier_updates (cfg : Config) (w w' : World)
    (log : list EpochLog) (r : Result unit) (sl : StepLog)
    (c : Call) (err : exn) :
  trainer cfg w = (w', log, r) ->
  In c sl ->
  call_error c = Some err ->
  stage c <= 2 ->
  (all_steps log = [sl] -> w' = w) /\
  (forall pre prev g o' W',
     all_steps log = pre ++ [prev; sl] ->
     In (CApply g (Ok (o', W'))) prev ->
     weights w' = W' /\ opt_state w' = o').
Proof.
  intros H Hin HE HS.
  pose proof (trainer_chain _ _ _ _ _ H) as CH. split.
  - intros E. rewrite E in CH.
    inversion CH as [|? tb1 w1 sl1 r1 sls1 ? Hrun1 Hch1]; subst.
    inversion Hch1; subst.
    destruct (run_step_metric _ _ _ _ _ _ Hrun1) as (_ & _ & HF).
    eapply HF; eassumption.
  - intros pre prev g o' W' E HA.
    destruct (chain_last_two _ _ _ _ CH _ _ _ E)
      as (tb & tb' & wa & wb & r1 & r2 & R1 & R2).
    destruct (run_step_state _ _ _ _ _ _ R1) as (_ & _ & HW).
    destruct (run_step_metric _ _ _ _ _ _ R2) as (_ & _ & HF).
    rewrite (HF _ _ Hin HE HS). eapply HW; exact HA.
Qed.

(** ** The metric update of a batch, in its place in the run *)

Lemma step_at_split (log : list EpochLog) (e s : nat) (sl : StepLog) :
  step_at log e s = Some sl ->
  exists pre post,
    all_steps log = pre ++ sl :: post /\
    length pre = length (all_steps (firstn e log)) + s.
Proof.
  unfold step_at. intros At.
  destruct (nth_error log e) as [el|] eqn:He; [|discriminate].
  destruct (nth_error_split _ _ He) as (l1 & l2 & -> & L1).
  destruct (nth_error_split _ _ At) as (s1 & s2 & Es & L2).
  exists (all_steps l1 ++ s1), (s2 ++ all_steps l2). split.
  - unfold all_steps. rewrite map_app, concat_app. cbn [map concat].
    rewrite Es, <- !app_assoc. reflexivity.
  - rewrite <- L1, firstn_app, Nat.sub_diag, firstn_all. cbn [firstn].
    rewrite app_nil_r, length_app, L2. reflexivity.
Qed.

Lemma chain_split (cfg : Config) (pre : list StepLog) :
  forall w w' sl post,
  chain cfg w (pre ++ sl :: post) w' ->
  exists tb w1 w2 r,
    chain cfg w pre w1 /\
    run_step cfg tb w1 = (w2, sl, r) /\
    chain cfg w2 post w'.
Proof.
  induction pre as [|q pre IH]; intros w w' sl post CH; cbn [app] in CH;
    inversion CH as [|? tb w1 sl0 r0 sls ? Hrun Hch]; subst.
  - exists tb, w, w1, r0. repeat split; [constructor | exact Hrun | exact Hch].
  - destruct (IH _ _ _ _ Hch) as (tb' & wa & wb & r' & C1 & R & C2).
    exists tb', wa, wb, r'. repeat split; [|exact R | exact C2].
    eapply chain_cons; eassumption.
Qed.

(** C7: in a verbose run with a [(name, metric)] pair, for every batch
    the metric is updated with the batch's ground truth and the model's
    prediction for it: the update is [metric_update] on the state [w1] the
    metric was left in by the batches before ([chain] from the caller's
    world over the batch logs before this one), and its result is the
    state [w2] the metric has for the batches after.  What the progress
    bar is given is the loss and, under [name], the metric's result in
    that new state; and the bar is advanced by exactly one unit for every
    batch, the last one started in a run that raises excepted. *)
Theorem metric_updated_and_shown (cfg : Config) (w w' : World)
    (log : list EpochLog) (r : Result unit) (e s : nat) (sl : StepLog)
    (name : string) :
  trainer cfg w = (w', log, r) ->
  step_at log e s = Some sl ->
  verbose cfg = true ->
  log_metric cfg = Some name ->
  exists tb pre post w1 w2,
    batch_at cfg e s = Some tb /\
    all_steps log = pre ++ sl :: post /\
    length pre = length (all_steps (firstn e log)) + s /\
    chain cfg w pre w1 /\
    chain cfg w2 post w' /\
    (forall gt p rm, In (CMetric gt p rm) sl ->
       gt = batch_ground_truth tb /\
       In (CForward (batch_inputs tb) (Ok p)) sl /\
       rm = metric_update (metric_state w1) gt p /\
       forall m', rm = Ok m' -> metric_state w2 = m') /\
    (forall n vals, In (CPbarAdd n vals) sl ->
       n = 1%Z /\
       exists lv p m',
         In (CMetric (batch_ground_truth tb) p (Ok m')) sl /\
         metric_update (metric_state w1) (batch_ground_truth tb) p = Ok m' /\
         metric_state w2 = m' /\
         vals = [("loss"%string, lv); (name, metric_result m')]) /\
    (r = Ok tt \/ ~ last_step log e s ->
       (exists p m', In (CMetric (batch_ground_truth tb) p (Ok m')) sl) /\
       pbar_advance sl = 1%Z).
Proof.
  intros H At V M.
  destruct (trainer_step_outcome _ _ _ _ _ _ _ _ H At)
    as (tb & wo1 & wo2 & r1 & BA & WF & SO & D).
  destruct (step_at_split _ _ _ _ At) as (pre & post & E & L).
  pose proof (trainer_chain _ _ _ _ _ H) as CH. rewrite E in CH.
  destruct (chain_split _ _ _ _ _ _ CH) as (tb' & w1 & w2 & r' & C1 & R & C2).
  destruct (run_step_metric _ _ _ _ _ _ R) as (HU & HS & _).
  exists tb, pre, post, w1, w2.
  split; [exact BA|]. split; [exact E|]. split; [exact L|].
  split; [exact C1|]. split; [exact C2|]. split; [|split].
  - intros gt p rm Hin.
    assert (G : gt = batch_ground_truth tb /\
                In (CForward (batch_inputs tb) (Ok p)) sl).
    { clear - SO Hin. outcome_cases SO; in_cases; try congruence;
        (split; [reflexivity | cbn; tauto]). }
    destruct G as [G1 G2]. split; [exact G1|]. split; [exact G2|].
    split; [eapply HU; exact Hin|].
    intros m' ->. eapply HS; exact Hin.
  - intros n vals Hin.
    assert (G : n = 1%Z /\
                exists lv p m',
                  In (CMetric (batch_ground_truth tb) p (Ok m')) sl /\
                  vals = [("loss"%string, lv); (name, metric_result m')]).
    { clear - SO Hin M. outcome_cases SO; in_cases; try congruence.
      split; [reflexivity|]. exists lv, preds, m'.
      split; [cbn; tauto|]. congruence. }
    destruct G as (G1 & lv & p & m' & GM & GV).
    split; [exact G1|]. exists lv, p, m'.
    split; [exact GM|].
    split; [symmetry; eapply HU; exact GM|].
    split; [eapply HS; exact GM | exact GV].
  - intros Done.
    assert (r1 = Ok tt) as ->.
    { destruct D as [D|[D LS]]; [exact D|].
      destruct Done as [->|NL]; [exact D | contradiction]. }
    clear - SO M V. outcome_cases SO; try congruence.
    split; [|reflexivity]. exists preds, m'. cbn; tauto.
Qed.

End TrainerMore.

(** * The theorems at work on the small framework *)

Module Witness.
Import Toy.

#[local] Existing Instance plain.

Lemma reversal_is_permutation (multi : bool) :
  shuffle_is_permutation (framework multi).
Proof.
  intros epoch buffer n. cbn. apply Permutation_sym, Permutation_rev.
Defined.

(** C1 on the unsupervised run: two epochs of three batches, 5 = 2+2+1. *)
Lemma every_epoch_covers_the_training_set_witness :
  length (log_of unsupervised w0) = 2 /\
  ((ceil_div 5 2 - 1) * 2 < 5 <= ceil_div 5 2 * 2)%Z /\
  forall e el, nth_error (log_of unsupervised w0) e = Some el ->
    exists bs,
      (forall s, batch_at unsupervised e s = nth_error bs s) /\
      Z.of_nat (length bs) = ceil_div 5 2 /\
      length (steps el) = length bs /\
      (forall s tb, nth_error bs s = Some tb ->
         exists sl rp, nth_error (steps el) s = Some sl /\
                       In (CForward (batch_inputs tb) rp) sl) /\
      Forall (fun tb => (0 < Z.of_nat (length (batch_inputs tb)) <= 2)%Z) bs /\
      Permutation (concat (map batch_inputs bs)) [1; 2; 3; 4; 5]%Z /\
      True.
Proof.
  refine (every_epoch_covers_the_training_set unsupervised w0
            (final_world unsupervised w0) (log_of unsupervised w0)
            (reversal_is_permutation false) _).
  vm_compute. reflexivity.
Defined.

(** C2 on the last batch of the first epoch of the supervised run: the
    single example [1] with its label [2]. *)
Lemma ground_truth_of_every_batch_witness :
  exists tb,
    batch_at supervised 0 2 = Some tb /\
    (exists rp, In (CForward (batch_inputs tb) rp) (step_log supervised w0 0 2)) /\
    (forall xb rp, In (CForward xb rp) (step_log supervised w0 0 2) ->
       xb = batch_inputs tb) /\
    (forall args kw rl, In (CLoss args kw rl) (step_log supervised w0 0 2) ->
       hd_error args = Some (ABatch (batch_ground_truth tb))) /\
    (forall gt p rm, In (CMetric gt p rm) (step_log supervised w0 0 2) ->
       gt = batch_ground_truth tb) /\
    length (batch_ground_truth tb) = length (batch_inputs tb) /\
    incl (combine (batch_inputs tb) (batch_ground_truth tb))
         (combine [1; 2; 3; 4; 5] [2; 4; 6; 8; 10])%Z.
Proof.
  refine (ground_truth_of_every_batch supervised w0 _ _ _ 0 2
            (step_log supervised w0 0 2) (trainer_run supervised w0) _).
  vm_compute. reflexivity.
Defined.

(** C3 on the first batch of the model with two outputs and a keyword. *)
Lemma loss_arguments_of_every_batch_witness :
  exists tb,
    batch_at (F := twin) two_outputs 0 0 = Some tb /\
    (forall args kw rl, In (CLoss args kw rl) (step_log (F := twin) two_outputs w0 0 0) ->
       exists preds,
         In (CForward (batch_inputs tb) (Ok preds))
            (step_log (F := twin) two_outputs w0 0 0) /\
         match preds with
         | Single p => args = [ABatch (batch_ground_truth tb); ATensor p]
         | Multiple ps =>
             args = ABatch (batch_ground_truth tb) :: map ATensor ps
         end /\
         kw = [("reduce"%string, 1%Z)] /\
         rl = loss args kw) /\
    (forall xb preds, In (CForward xb (Ok preds)) (step_log (F := twin) two_outputs w0 0 0) ->
       exists args kw rl, In (CLoss args kw rl) (step_log (F := twin) two_outputs w0 0 0)).
Proof.
  refine (loss_arguments_of_every_batch (F := twin) two_outputs w0 _ _ _ 0 0
            (step_log (F := twin) two_outputs w0 0 0) (trainer_run (F := twin) two_outputs w0) _).
  vm_compute. reflexivity.
Defined.

(** C4 on the first batch of the supervised run: the weight [1] is the
    auxiliary loss, added to the per-example losses [5; 4]. *)
Lemma total_loss_of_every_batch_witness :
  exists (tb : Batch (@Row types)) (w1 : @World types) args kw l0,
    batch_at supervised 0 0 = Some tb /\
    In (CForward (batch_inputs tb) (forward false (weights w1) (batch_inputs tb)))
       (step_log supervised w0 0 0) /\
    In (CLoss args kw (Ok l0)) (step_log supervised w0 0 0) /\
    (aux_losses (weights w1) (batch_inputs tb) = [] ->
     vector [6; 5]%Z = l0) /\
    (aux_losses (weights w1) (batch_inputs tb) <> [] ->
     vector [6; 5]%Z
     = add l0 (fold_left add (aux_losses (weights w1) (batch_inputs tb))
                         (scalar 0))) /\
    Ok 1%Z = gradient (weights w1) tb (vector [6; 5]%Z).
Proof.
  refine (total_loss_of_every_batch supervised w0 _ _ _ 0 0
            (step_log supervised w0 0 0) (trainer_run supervised w0) _
            (vector [6; 5]%Z) (Ok 1%Z) _).
  - vm_compute. reflexivity.
  - vm_compute. tauto.
Defined.

(** C5 on the last batch of the first epoch of the unsupervised run: one
    example in a batch of two, the loss [1] shown as [1; 1], the gradient
    taken of [1]. *)
Lemma short_loss_is_padded_for_display_only_witness :
  exists loss g ow,
    In (CGradient loss (Ok g)) (step_log unsupervised w0 0 2) /\
    In (CApply g (Ok ow)) (step_log unsupervised w0 0 2) /\
    loss = vector [1]%Z /\
    hd_error [("loss"%string, vector [1; 1]%Z); ("rows"%string, scalar 5)]
    = Some ("loss"%string,
            mk_ndarray [2] (data loss ++ repeat (average (data loss)) (2 - 1))).
Proof.
  assert (At : step_at (log_of unsupervised w0) 0 2
               = Some (step_log unsupervised w0 0 2))
    by (vm_compute; reflexivity).
  assert (Shown : In (CPbarAdd (T := types) 1
                        [("loss"%string, vector [1; 1]%Z);
                         ("rows"%string, scalar 5)])
                     (step_log unsupervised w0 0 2))
    by (vm_compute; tauto).
  destruct (short_loss_is_padded_for_display_only unsupervised w0 _ _ _ 0 2
              _ (trainer_run unsupervised w0) At eq_refl _ _ Shown)
    as (tb & w1 & loss & g & ow & _ & HG & _ & HA & _ & U & _ & P).
  assert (E : vector [1]%Z = loss).
  { apply (U (vector [1]%Z) (Ok 1%Z)). vm_compute. tauto. }
  exists loss, g, ow. split; [exact HG|]. split; [exact HA|].
  split; [symmetry; exact E|].
  apply P; [rewrite <- E; reflexivity | reflexivity].
Defined.

(** C10 on two batches of the unsupervised run: the first has a loss of
    shape [(2,)], shown as it is; the last has a loss of shape [(1,)], for
    which the padding is computed. *)
Lemma padding_attempted_iff_shape_differs_witness :
  (display_loss (T := types) 2 (vector [1; 1]%Z) = Ok (vector [1; 1]%Z) /\
   forall n vals, In (CPbarAdd n vals) (step_log unsupervised w0 0 0) ->
                  hd_error vals = Some ("loss"%string, vector [1; 1]%Z)) /\
  (display_loss (T := types) 2 (vector [1]%Z)
   = pad_with_mean (T := types) 2 (vector [1]%Z) /\
   (forall n vals, In (CPbarAdd n vals) (step_log unsupervised w0 0 2) ->
      exists lv', pad_with_mean (T := types) 2 (vector [1]%Z) = Ok lv' /\
                  hd_error vals = Some ("loss"%string, lv')) /\
   (forall err, pad_with_mean (T := types) 2 (vector [1]%Z) = Raise err ->
      result_of unsupervised w0 = Raise err /\
      last_step (log_of unsupervised w0) 0 2 /\
      pbar_advance (step_log unsupervised w0 0 2) = 0%Z)).
Proof.
  split.
  - refine (proj1 (padding_attempted_iff_shape_differs unsupervised w0 _ _ _
                     0 0 (step_log unsupervised w0 0 0)
                     (trainer_run unsupervised w0) _ eq_refl
                     (vector [1; 1]%Z) 1%Z (1, 0%Z) _ _) _).
    + vm_compute. reflexivity.
    + vm_compute. tauto.
    + vm_compute. tauto.
    + right. reflexivity.
  - refine (proj2 (padding_attempted_iff_shape_differs unsupervised w0 _ _ _
                     0 2 (step_log unsupervised w0 0 2)
                     (trainer_run unsupervised w0) _ eq_refl
                     (vector [1]%Z) 1%Z (3, (-2)%Z) _ _) _).
    + vm_compute. reflexivity.
    + vm_compute. tauto.
    + vm_compute. tauto.
    + split; discriminate.
Defined.

(** C7 on the first batch of the unsupervised run, metric ["rows"]: the
    update starts from the metric state the caller passed in. *)
Lemma metric_updated_and_shown_witness :
  exists tb w2,
    batch_at unsupervised 0 0 = Some tb /\
    (forall gt p rm, In (CMetric gt p rm) (step_log unsupervised w0 0 0) ->
       gt = batch_ground_truth tb /\
       In (CForward (batch_inputs tb) (Ok p)) (step_log unsupervised w0 0 0) /\
       rm = count_rows (metric_state w0) gt p /\
       forall m', rm = Ok m' -> metric_state w2 = m') /\
    (forall n vals, In (CPbarAdd n vals) (step_log unsupervised w0 0 0) ->
       n = 1%Z /\
       exists lv p m',
         In (CMetric (batch_ground_truth tb) p (Ok m'))
            (step_log unsupervised w0 0 0) /\
         count_rows (metric_state w0) (batch_ground_truth tb) p = Ok m' /\
         metric_state w2 = m' /\
         vals = [("loss"%string, lv); ("rows"%string, scalar m')]) /\
    (exists p m', In (CMetric (batch_ground_truth tb) p (Ok m'))
                     (step_log unsupervised w0 0 0)) /\
    pbar_advance (step_log unsupervised w0 0 0) = 1%Z.
Proof.
  assert (At : step_at (log_of unsupervised w0) 0 0
               = Some (step_log unsupervised w0 0 0))
    by (vm_compute; reflexivity).
  destruct (metric_updated_and_shown unsupervised w0 _ _ _ 0 0 _
              "rows"%string (trainer_run unsupervised w0) At eq_refl eq_refl)
    as (tb & pre & post & w1 & w2 & BA & E & L & C1 & C2 & HM & HP & HD).
  change (length pre = 0) in L.
  destruct pre as [|q pre]; [|discriminate L].
  assert (E1 : w1 = w0) by (inversion C1; reflexivity).
  rewrite E1 in HM, HP.
  exists tb, w2. split; [exact BA|]. split; [exact HM|]. split; [exact HP|].
  apply HD. left. vm_compute. reflexivity.
Defined.

(** C6 on the run whose second forward pass raises. *)
Lemma errors_propagate_unchanged_witness :
  result_of failing w0 = Raise (FrameworkError "negative input"%string) /\
  last_step (log_of failing w0) 0 1 /\
  exists pre,
    step_log failing w0 0 1
    = pre ++ [CForward (T := types) [-3; 2]%Z
                (Raise (FrameworkError "negative input"%string))] /\
    Forall (fun c' => call_error c' = None) pre.
Proof.
  refine (errors_propagate_unchanged failing w0 _ _ _ 0 1
            (step_log failing w0 0 1)
            (CForward (T := types) [-3; 2]%Z
               (Raise (FrameworkError "negative input"%string)))
            (FrameworkError "negative input"%string)
            (trainer_run failing w0) _ _ eq_refl).
  - vm_compute. reflexivity.
  - vm_compute. tauto.
Defined.

(** C8 on the unsupervised run. *)
Lemma verbose_does_not_change_training_witness :
  exists w2 log2,
    trainer (with_verbose false unsupervised) w0 = (w2, log2, Ok tt) /\
    weights w2 = weights (final_world unsupervised w0) /\
    opt_state w2 = opt_state (final_world unsupervised w0) /\
    training_log log2 = training_log (log_of unsupervised w0) /\
    forall el, In el log2 ->
      progbar el = None /\
      forall sl, In sl (steps el) -> training_calls sl = sl.
Proof.
  refine (verbose_does_not_change_training unsupervised w0
            (final_world unsupervised w0) (log_of unsupervised w0) _).
  vm_compute. reflexivity.
Defined.

(** C8 as the spec words it fails: with a loss of shape [(n, 1)] the
    call that is not verbose returns after six optimizer steps, with the
    weight [-5], while the same call with [verbose = True] raises
    [ValueError] in the display of its first batch, after one optimizer
    step, with the weight [0]. *)
Lemma verbose_can_stop_training :
  with_verbose false unsupervised = quiet /\
  with_verbose true unsupervised = unsupervised /\
  result_of (F := per_feature) quiet w0 = Ok tt /\
  optimizer_steps (log_of (F := per_feature) quiet w0) = 6 /\
  weights (final_world (F := per_feature) quiet w0) = (-5)%Z /\
  result_of (F := per_feature) unsupervised w0 = Raise ValueError /\
  optimizer_steps (log_of (F := per_feature) unsupervised w0) = 1 /\
  weights (final_world (F := per_feature) unsupervised w0) = 0%Z /\
  training_log (log_of (F := per_feature) unsupervised w0)
  <> training_log (log_of (F := per_feature) quiet w0).
Proof.
  repeat split; try (vm_compute; reflexivity).
  vm_compute. discriminate.
Qed.

(** C9 on a call with no epoch and a batch size of two. *)
Lemma zero_epochs_do_nothing_witness :
  final_world no_epochs w0 = w0 /\ log_of no_epochs w0 = [] /\
  result_of no_epochs w0 = Ok tt.
Proof.
  destruct (zero_epochs_do_nothing no_epochs w0 _ _ _ eq_refl
              (trainer_run no_epochs w0)) as (HW & HL & HR & _).
  split; [exact HW|]. split; [exact HL|].
  apply HR. split; [exact I|]. split; [reflexivity|].
  split; reflexivity.
Defined.

(** C9 as the spec words it fails: with no epoch and a batch size of
    zero the call does not return normally, the dataset cannot be
    built. *)
Lemma zero_epochs_can_raise :
  epochs no_epochs_no_batch = 0%Z /\
  result_of no_epochs_no_batch w0 = Raise InvalidArgumentError /\
  result_of no_epochs_no_batch w0 <> Ok tt.
Proof.
  split; [reflexivity|]. split; [reflexivity|]. discriminate.
Qed.

End Witness.

(** * The further properties at work on the small framework *)

Module MoreWitness.
Import Toy.

#[local] Existing Instance plain.

(** In the unsupervised run the first optimizer step leaves the weight
    [0] and one optimizer slot; the second batch is passed through the
    model with that weight. *)
Lemma each_batch_starts_from_the_previous_update_witness :
  (forall xb rp, In (CForward xb rp) (step_log unsupervised w0 0 1) ->
     rp = forward false 0%Z xb) /\
  (forall g' ra, In (CApply g' ra) (step_log unsupervised w0 0 1) ->
     ra = sgd 1 g' 0%Z).
Proof.
  assert (A0 : nth_error (all_steps (log_of unsupervised w0)) 0
               = Some (step_log unsupervised w0 0 0))
    by (vm_compute; reflexivity).
  assert (A1 : nth_error (all_steps (log_of unsupervised w0)) 1
               = Some (step_log unsupervised w0 0 1))
    by (vm_compute; reflexivity).
  assert (HA : In (CApply (T := types) 1%Z (Ok (1, 0%Z)))
                  (step_log unsupervised w0 0 0))
    by (vm_compute; tauto).
  exact (proj2 (each_batch_starts_from_the_previous_update unsupervised w0
                  _ _ _ (trainer_run unsupervised w0))
           0 _ _ 1%Z 1 0%Z A0 A1 HA).
Defined.

(** The unsupervised run ends with the weight [-5] and six optimizer
    steps counted, as returned by the optimizer step of its last batch. *)
Lemma final_state_is_the_last_update_witness :
  weights (final_world unsupervised w0) = (-5)%Z /\
  opt_state (final_world unsupervised w0) = 6.
Proof.
  assert (E : all_steps (log_of unsupervised w0)
              = removelast (all_steps (log_of unsupervised w0))
                ++ [step_log unsupervised w0 1 2])
    by (vm_compute; reflexivity).
  assert (HA : In (CApply (T := types) 1%Z (Ok (6, (-5)%Z)))
                  (step_log unsupervised w0 1 2))
    by (vm_compute; tauto).
  exact (proj2 (final_state_is_the_last_update unsupervised w0 _ _ _
                  (trainer_run unsupervised w0))
           _ _ 1%Z 6 (-5)%Z E HA).
Defined.

Lemma calls_of_a_batch_are_in_order_witness :
  (exists xb rp rest, step_log unsupervised w0 0 0 = CForward xb rp :: rest) /\
  StronglySorted lt (map stage (step_log unsupervised w0 0 0)).
Proof.
  assert (At : step_at (log_of unsupervised w0) 0 0
               = Some (step_log unsupervised w0 0 0))
    by (vm_compute; reflexivity).
  exact (calls_of_a_batch_are_in_order unsupervised w0 _ _ _ 0 0 _
           (trainer_run unsupervised w0) At).
Defined.

Lemma dataset_errors_precede_training_witness :
  exists e, trainer too_few_labels w0 = (w0, [], Raise e).
Proof.
  apply (dataset_errors_precede_training too_few_labels w0).
  left. exists [2; 4]%Z. split; [reflexivity | discriminate].
Defined.

Lemma nonpositive_epochs_train_nothing_witness :
  final_world negative_epochs w0 = w0 /\ log_of negative_epochs w0 = [].
Proof.
  apply (nonpositive_epochs_train_nothing negative_epochs w0 _ _
           (result_of negative_epochs w0)).
  - discriminate.
  - apply trainer_run.
Defined.

Lemma empty_training_set_trains_nothing_witness :
  trainer no_examples w0
  = (w0, repeat (mk_EpochLog (Some (0%Z, 1%Z)) []) 2, Ok tt).
Proof.
  apply (empty_training_set_trains_nothing no_examples w0).
  - reflexivity.
  - left. reflexivity.
  - reflexivity.
  - split; reflexivity.
Defined.

Lemma quiet_run_touches_no_metric_and_shows_nothing_witness :
  metric_state (final_world quiet w0) = metric_state w0 /\
  forall el, In el (log_of quiet w0) ->
    progbar el = None /\
    forall sl c, In sl (steps el) -> In c sl -> is_training_call c = true.
Proof.
  exact (quiet_run_touches_no_metric_and_shows_nothing quiet w0 _ _ _
           eq_refl (trainer_run quiet w0)).
Defined.

Lemma progress_bar_reaches_its_target_witness :
  exists el,
    nth_error (log_of unsupervised w0) 1 = Some el /\
    progbar el = Some (3%Z, 1%Z) /\ epoch_advance el = 3%Z.
Proof.
  assert (R : trainer unsupervised w0
              = (final_world unsupervised w0, log_of unsupervised w0, Ok tt))
    by (vm_compute; reflexivity).
  assert (E : nth_error (log_of unsupervised w0) 1
              = Some (nth 1 (log_of unsupervised w0) (mk_EpochLog None [])))
    by (vm_compute; reflexivity).
  exists (nth 1 (log_of unsupervised w0) (mk_EpochLog None [])).
  split; [exact E|].
  exact (progress_bar_reaches_its_target unsupervised w0 _ _
           (Witness.reversal_is_permutation false) eq_refl R
           _ (nth_error_In _ _ E)).
Defined.

Lemma optimizer_steps_of_a_returning_run_witness :
  optimizer_steps (log_of unsupervised w0) = 2 * 3.
Proof.
  assert (R : trainer unsupervised w0
              = (final_world unsupervised w0, log_of unsupervised w0, Ok tt))
    by (vm_compute; reflexivity).
  exact (optimizer_steps_of_a_returning_run unsupervised w0 _ _
           (Witness.reversal_is_permutation false) R).
Defined.

Lemma displayed_loss_has_consistent_shape_witness :
  exists lv rest,
    [("loss"%string, vector [1; 1]%Z); ("rows"%string, scalar 5)]
    = ("loss"%string, lv) :: rest /\
    (shape lv = [] \/ map Z.of_nat (shape lv) = [2%Z]).
Proof.
  assert (At : step_at (log_of unsupervised w0) 0 2
               = Some (step_log unsupervised w0 0 2))
    by (vm_compute; reflexivity).
  assert (Shown : In (CPbarAdd (T := types) 1
                        [("loss"%string, vector [1; 1]%Z);
                         ("rows"%string, scalar 5)])
                     (step_log unsupervised w0 0 2))
    by (vm_compute; tauto).
  exact (displayed_loss_has_consistent_shape unsupervised w0 _ _ _ 0 2 _ _ _
           (trainer_run unsupervised w0) At Shown).
Defined.

(** With a loss of shape [(2, 1)] the verbose run raises [ValueError] in
    its first batch, after the weight went from [1] to [0]. *)
Lemma unpaddable_loss_raises_after_the_update_witness :
  result_of (F := per_feature) unsupervised w0 = Raise ValueError /\
  last_step (log_of (F := per_feature) unsupervised w0) 0 0 /\
  (forall c, In c (step_log (F := per_feature) unsupervised w0 0 0) ->
     is_training_call c = true) /\
  weights (final_world (F := per_feature) unsupervised w0) = 0%Z /\
  opt_state (final_world (F := per_feature) unsupervised w0) = 1.
Proof.
  assert (At : step_at (log_of (F := per_feature) unsupervised w0) 0 0
               = Some (step_log (F := per_feature) unsupervised w0 0 0))
    by (vm_compute; reflexivity).
  assert (HG : In (CGradient (T := types) (mk_ndarray [2; 1] [1; 1]%Z)
                             (Ok 1%Z))
                  (step_log (F := per_feature) unsupervised w0 0 0))
    by (vm_compute; tauto).
  assert (HA : In (CApply (T := types) 1%Z (Ok (1, 0%Z)))
                  (step_log (F := per_feature) unsupervised w0 0 0))
    by (vm_compute; tauto).
  refine (unpaddable_loss_raises_after_the_update (F := per_feature)
            unsupervised w0 _ _ _ 0 0 _ _ _ _ _ eq_refl
            (trainer_run (F := per_feature) unsupervised w0) At HG HA _).
  left. apply le_n.
Defined.

Lemma metric_accumulates_across_batches_witness :
  Ok 4%Z = count_rows 2%Z [3; 2]%Z (Single [0; 0]%Z).
Proof.
  assert (A0 : nth_error (all_steps (log_of unsupervised w0)) 0
               = Some (step_log unsupervised w0 0 0))
    by (vm_compute; reflexivity).
  assert (A1 : nth_error (all_steps (log_of unsupervised w0)) 1
               = Some (step_log unsupervised w0 0 1))
    by (vm_compute; reflexivity).
  assert (M0 : In (CMetric (T := types) [5; 4]%Z (Single [5; 4]%Z) (Ok 2%Z))
                  (step_log unsupervised w0 0 0))
    by (vm_compute; tauto).
  assert (M1 : In (CMetric (T := types) [3; 2]%Z (Single [0; 0]%Z) (Ok 4%Z))
                  (step_log unsupervised w0 0 1))
    by (vm_compute; tauto).
  exact (metric_accumulates_across_batches unsupervised w0 _ _ _ 0 _ _
           _ _ _ _ _ _ (trainer_run unsupervised w0) A0 A1 M0 M1).
Defined.

(** The run whose second forward pass raises leaves the weight [0] of
    the first optimizer step. *)
Lemma failure_keeps_the_earlier_updates_witness :
  weights (final_world failing w0) = 0%Z /\
  opt_state (final_world failing w0) = 1.
Proof.
  assert (E : all_steps (log_of failing w0)
              = [] ++ [step_log failing w0 0 0; step_log failing w0 0 1])
    by (vm_compute; reflexivity).
  assert (HC : In (CForward (T := types) [-3; 2]%Z
                     (Raise (FrameworkError "negative input"%string)))
                  (step_log failing w0 0 1))
    by (vm_compute; tauto).
  assert (HA : In (CApply (T := types) 1%Z (Ok (1, 0%Z)))
                  (step_log failing w0 0 0))
    by (vm_compute; tauto).
  exact (proj2 (failure_keeps_the_earlier_updates failing w0 _ _ _ _ _ _
                  (trainer_run failing w0) HC eq_refl (le_S _ _ (le_S _ _ (le_n 0))))
           _ _ 1%Z 1 0%Z E HA).
Defined.

End MoreWitness.
